(** * OpenAI -> NVIDIA NIM proxy ([server.js]): request and response adapters

    A shallow embedding of the chat-completions handler of [server.js]:
    model resolution, prompt augmentation, parameter defaulting, the
    non-streaming response transform and the streaming line handler with
    its [buffer] / [reasoningStarted] state.  The file holds the handler
    twice; line numbers are those of the first copy (lines 73-266) unless
    the second (lines 308-475) is named.

    JavaScript data is modelled as the program has it:
    - a string is its sequence of UTF-16 code units ([jsstring]);
    - a [Buffer] chunk is a list of bytes, turned into text by
      [chunk.toString()] (UTF-8 decoding with U+FFFD replacement);
    - a parsed JSON document is a [json] tree whose objects keep their
      keys in order; [undefined] is the [None] of an [option json];
    - an exception thrown inside a [try] is the [Throw] of [completion];
    - a string given to [res.write] goes out as its UTF-8 bytes;
    - [JSON.parse], [String.prototype.toLowerCase], the probe call and
      the upstream call are parameters: the results hold for whatever
      they return. *)

From Stdlib Require Import List ZArith Bool Lia String Ascii DecimalString.
Import ListNotations.
Local Open Scope Z_scope.
Local Open Scope list_scope.
#[local] Set Warnings "-register-all".

(* ================================================================== *)
(** ** JavaScript strings *)
(* ================================================================== *)

(** A JavaScript string: its UTF-16 code units, each in [0, 0xFFFF]. *)
Definition jsstring := list Z.

(** The code units of an ASCII literal of the source. *)
Definition lit (s : string) : jsstring :=
  map (fun a => Z.of_N (N_of_ascii a)) (list_ascii_of_string s).

Definition NEWLINE : Z := 10.
Definition QUOTE : Z := 34.
Definition BACKSLASH : Z := 92.

Fixpoint str_eqb (a b : jsstring) : bool :=
  match a, b with
  | [], [] => true
  | x :: a', y :: b' => (x =? y) && str_eqb a' b'
  | _, _ => false
  end.

(** [s.startsWith(p)] *)
Fixpoint startsWith (p s : jsstring) : bool :=
  match p, s with
  | [], _ => true
  | x :: p', y :: s' => (x =? y) && startsWith p' s'
  | _ :: _, [] => false
  end.

(** [s.includes(p)] *)
Fixpoint includes (p s : jsstring) : bool :=
  startsWith p s ||
  match s with
  | [] => false
  | _ :: s' => includes p s'
  end.

(** [s.slice(n)] for [0 <= n]. *)
Definition slice (n : nat) (s : jsstring) : jsstring := skipn n s.

(** [s.split(sep)] for a separator of one code unit: never empty, and
    [s] is the pieces joined by [sep]. *)
Fixpoint split (sep : Z) (s : jsstring) : list jsstring :=
  match s with
  | [] => [[]]
  | c :: s' =>
      if c =? sep then [] :: split sep s'
      else match split sep s' with
           | piece :: pieces => (c :: piece) :: pieces
           | [] => [[c]]
           end
  end.

(** [lines.pop()]: the last element, taken off the array. *)
Definition pop (lines : list jsstring) : option jsstring * list jsstring :=
  match lines with
  | [] => (None, [])
  | _ :: _ => (Some (last lines []), removelast lines)
  end.

(** Lower-casing of the ASCII letters, the part of
    [String.prototype.toLowerCase] that needs no Unicode table. *)
Definition asciiLower (s : jsstring) : jsstring :=
  map (fun c => if (65 <=? c) && (c <=? 90) then c + 32 else c) s.

(* ================================================================== *)
(** ** [Buffer.prototype.toString]: UTF-8 decoding *)
(* ================================================================== *)

Definition REPLACEMENT : Z := 0xFFFD.

(** State of the decoder between two bytes: nothing pending, or a code
    point under construction with the number of continuation bytes still
    expected and the range allowed for the next one. *)
Inductive decoder :=
| Idle
| Pending (cp : Z) (more : nat) (lo hi : Z).

(** A byte met when nothing is pending. *)
Definition lead (b : Z) : decoder * list Z :=
  if b <=? 0x7F then (Idle, [b])
  else if (0xC2 <=? b) && (b <=? 0xDF) then
    (Pending (Z.land b 0x1F) 1 0x80 0xBF, [])
  else if (0xE0 <=? b) && (b <=? 0xEF) then
    (Pending (Z.land b 0x0F) 2
       (if b =? 0xE0 then 0xA0 else 0x80)
       (if b =? 0xED then 0x9F else 0xBF), [])
  else if (0xF0 <=? b) && (b <=? 0xF4) then
    (Pending (Z.land b 0x07) 3
       (if b =? 0xF0 then 0x90 else 0x80)
       (if b =? 0xF4 then 0x8F else 0xBF), [])
  else (Idle, [REPLACEMENT]).

(** One byte: a continuation byte extends the pending code point; any
    other byte ends it with U+FFFD and is then read as a lead byte. *)
Definition feed (d : decoder) (b : Z) : decoder * list Z :=
  match d with
  | Idle => lead b
  | Pending cp more lo hi =>
      if (lo <=? b) && (b <=? hi) then
        let cp' := Z.lor (Z.shiftl cp 6) (Z.land b 0x3F) in
        match more with
        | S (S n) => (Pending cp' (S n) 0x80 0xBF, [])
        | _ => (Idle, [cp'])
        end
      else
        let (d', out) := lead b in (d', REPLACEMENT :: out)
  end.

(** The code points of a byte sequence; a sequence cut short at the end
    of the input gives U+FFFD. *)
Fixpoint decode (d : decoder) (bytes : list Z) : list Z :=
  match bytes with
  | [] => match d with Idle => [] | Pending _ _ _ _ => [REPLACEMENT] end
  | b :: rest => let (d', out) := feed d b in out ++ decode d' rest
  end.

(** The UTF-16 code units of a code point. *)
Definition utf16 (cp : Z) : jsstring :=
  if cp <? 0x10000 then [cp]
  else let c := cp - 0x10000 in
       [0xD800 + Z.shiftr c 10; 0xDC00 + Z.land c 0x3FF].

(** [chunk.toString()] on a [Buffer]: every chunk is decoded on its own. *)
Definition chunk_toString (chunk : list Z) : jsstring :=
  flat_map utf16 (decode Idle chunk).

(* ================================================================== *)
(** ** Parsed JSON and the JavaScript operations applied to it *)
(* ================================================================== *)

(** A value produced by [JSON.parse] (or the body parser).  A number is
    carried as the text JavaScript prints for it (["0.85"], ["4096"]):
    the handler only tests numbers for truthiness, converts them to text
    and serialises them again. *)
Inductive json :=
| JNull
| JBool (b : bool)
| JNum (text : jsstring)
| JStr (s : jsstring)
| JArr (items : list json)
| JObj (fields : list (jsstring * json)).

(** The outcome of an expression that may throw. *)
Inductive completion (A : Type) :=
| Normal (a : A)
| Throw.
Arguments Normal {A} a.
Arguments Throw {A}.

Definition bind {A B} (c : completion A) (k : A -> completion B) : completion B :=
  match c with
  | Normal a => k a
  | Throw => Throw
  end.

Notation "x <- c ;; k" := (bind c (fun x => k))
  (at level 61, c at next level, right associativity).

(** Truthiness of a value ([if (v)], [v || d], [!v]). *)
Definition truthy (v : json) : bool :=
  match v with
  | JNull => false
  | JBool b => b
  | JNum t => negb (str_eqb t (lit "0"))
  | JStr s => negb (str_eqb s [])
  | JArr _ | JObj _ => true
  end.

(** Truthiness of a value that may be [undefined]. *)
Definition truthy_opt (v : option json) : bool :=
  match v with
  | Some x => truthy x
  | None => false
  end.

Fixpoint assoc (k : jsstring) (fields : list (jsstring * json)) : option json :=
  match fields with
  | [] => None
  | (k', v) :: rest => if str_eqb k k' then Some v else assoc k rest
  end.

Definition hasKey (k : jsstring) (fields : list (jsstring * json)) : bool :=
  existsb (fun kv => str_eqb k (fst kv)) fields.

(** [v.k] for [v] neither [null] nor [undefined] and [k] one of the
    names the handler reads ([choices], [delta], [content],
    [reasoning_content], [role], [message], ...): an own property of an
    object; arrays, strings, numbers and booleans have no such property. *)
Definition getProp (k : jsstring) (v : json) : option json :=
  match v with
  | JObj fields => assoc k fields
  | _ => None
  end.

(** [v[0]] for [v] neither [null] nor [undefined]. *)
Definition getIndex0 (v : json) : option json :=
  match v with
  | JArr (x :: _) => Some x
  | JObj fields => assoc (lit "0") fields
  | JStr (c :: _) => Some (JStr [c])
  | _ => None
  end.

(** [o.k = v] on the fields of an object: the value is replaced where
    the key stands, a new key goes last. *)
Fixpoint setField (k : jsstring) (v : json) (fields : list (jsstring * json))
  : list (jsstring * json) :=
  match fields with
  | [] => [(k, v)]
  | (k', v') :: rest =>
      if str_eqb k k' then (k', v) :: rest else (k', v') :: setField k v rest
  end.

(** [o.k = v] as [JSON.stringify] later sees it: an object gets the
    property; on an array the named property is not serialised, and on a
    string, number or boolean the assignment is dropped (the file is not
    in strict mode). *)
Definition setProp (k : jsstring) (v : json) (o : json) : json :=
  match o with
  | JObj fields => JObj (setField k v fields)
  | _ => o
  end.

(** [delete o.k] *)
Definition deleteProp (k : jsstring) (o : json) : json :=
  match o with
  | JObj fields => JObj (filter (fun kv => negb (str_eqb k (fst kv))) fields)
  | _ => o
  end.

(** [o[0] = v] where [o[0]] was read before. *)
Definition setIndex0 (v : json) (o : json) : json :=
  match o with
  | JArr (_ :: rest) => JArr (v :: rest)
  | JObj fields => JObj (setField (lit "0") v fields)
  | _ => o
  end.

(** The text of a value as string concatenation ([+] with a string
    operand) takes it.  An array is its elements joined by commas, [null]
    elements giving nothing; an object is ["[object Object]"], unless it
    carries a key [toString] of its own, which is not callable: then the
    conversion throws a [TypeError]. *)
Fixpoint toText (v : json) : completion jsstring :=
  match v with
  | JNull => Normal (lit "null")
  | JBool true => Normal (lit "true")
  | JBool false => Normal (lit "false")
  | JNum t => Normal t
  | JStr s => Normal s
  | JArr items =>
      (fix join (l : list json) : completion jsstring :=
         match l with
         | [] => Normal []
         | x :: rest =>
             s <- match x with JNull => Normal [] | _ => toText x end ;;
             match rest with
             | [] => Normal s
             | _ :: _ => r <- join rest ;; Normal (s ++ lit "," ++ r)
             end
         end) items
  | JObj fields =>
      if hasKey (lit "toString") fields then Throw
      else Normal (lit "[object Object]")
  end.

(** The text of a value that may be [undefined]. *)
Definition toText_opt (v : option json) : completion jsstring :=
  match v with
  | Some x => toText x
  | None => Normal (lit "undefined")
  end.

(* ================================================================== *)
(** ** [JSON.stringify] *)
(* ================================================================== *)

Definition hexDigit (n : Z) : Z := if n <? 10 then 48 + n else 87 + n.

(** [\uXXXX] with lower-case digits. *)
Definition unicodeEscape (c : Z) : jsstring :=
  lit "\u" ++ map hexDigit
    [Z.shiftr c 12 mod 16; Z.shiftr c 8 mod 16; Z.shiftr c 4 mod 16; c mod 16].

Definition isLeadSurrogate (c : Z) : bool := (0xD800 <=? c) && (c <=? 0xDBFF).
Definition isTrailSurrogate (c : Z) : bool := (0xDC00 <=? c) && (c <=? 0xDFFF).

(** The characters of a quoted string: the short escapes, [\uXXXX] for
    the other control characters and for surrogates without their pair,
    everything else as it is. *)
Fixpoint quoteChars (s : jsstring) : jsstring :=
  match s with
  | [] => []
  | c :: rest =>
      if c =? 8 then lit "\b" ++ quoteChars rest
      else if c =? 9 then lit "\t" ++ quoteChars rest
      else if c =? 10 then lit "\n" ++ quoteChars rest
      else if c =? 12 then lit "\f" ++ quoteChars rest
      else if c =? 13 then lit "\r" ++ quoteChars rest
      else if c =? QUOTE then [BACKSLASH; QUOTE] ++ quoteChars rest
      else if c =? BACKSLASH then [BACKSLASH; BACKSLASH] ++ quoteChars rest
      else if c <? 32 then unicodeEscape c ++ quoteChars rest
      else if isLeadSurrogate c then
        match rest with
        | t :: rest' =>
            if isTrailSurrogate t then c :: t :: quoteChars rest'
            else unicodeEscape c ++ quoteChars rest
        | [] => unicodeEscape c
        end
      else if isTrailSurrogate c then unicodeEscape c ++ quoteChars rest
      else c :: quoteChars rest
  end.

Definition quoteJSONString (s : jsstring) : jsstring :=
  [QUOTE] ++ quoteChars s ++ [QUOTE].

(** A number that is not finite: [JSON.parse] reads [1e999] as
    [Infinity]. *)
Definition nonFinite (t : jsstring) : bool :=
  str_eqb t (lit "Infinity") || str_eqb t (lit "-Infinity") || str_eqb t (lit "NaN").

(** [JSON.stringify(v)] without indentation; a number that is not finite
    is written [null]. *)
Fixpoint JSON_stringify (v : json) : jsstring :=
  match v with
  | JNull => lit "null"
  | JBool true => lit "true"
  | JBool false => lit "false"
  | JNum t => if nonFinite t then lit "null" else t
  | JStr s => quoteJSONString s
  | JArr items =>
      lit "[" ++
      (fix elements (l : list json) : jsstring :=
         match l with
         | [] => []
         | x :: rest =>
             JSON_stringify x ++
             match rest with
             | [] => []
             | _ :: _ => lit "," ++ elements rest
             end
         end) items
      ++ lit "]"
  | JObj fields =>
      lit "{" ++
      (fix members (l : list (jsstring * json)) : jsstring :=
         match l with
         | [] => []
         | (k, x) :: rest =>
             quoteJSONString k ++ lit ":" ++ JSON_stringify x ++
             match rest with
             | [] => []
             | _ :: _ => lit "," ++ members rest
             end
         end) fields
      ++ lit "}"
  end.

(** A parser that knows the documents of a finite list by their
    serialisation and rejects every other text; on the serialisation of
    a listed document it returns what [JSON.parse] returns.  It stands
    for [JSON.parse] in the runs on sample inputs. *)
Definition parse_among (known : list json) (text : jsstring) : option json :=
  find (fun d => str_eqb (JSON_stringify d) text) known.

(* ================================================================== *)
(** ** Configuration *)
(* ================================================================== *)

(** The three toggles at the top of [server.js]. *)
Record Config := {
  SHOW_REASONING : bool;
  ENABLE_THINKING_MODE : bool;
  FORCE_DETAILED_RESPONSES : bool
}.

(** The values the file sets. *)
Definition deployed : Config :=
  {| SHOW_REASONING := false;
     ENABLE_THINKING_MODE := false;
     FORCE_DETAILED_RESPONSES := true |}.

(* ================================================================== *)
(** ** Tables and records of the request and response adapters *)
(* ================================================================== *)

(** Lines 27-35. *)
Definition MODEL_MAPPING : list (jsstring * jsstring) :=
  [ (lit "gpt-3.5-turbo", lit "nvidia/llama-3.1-nemotron-ultra-253b-v1");
    (lit "gpt-4", lit "qwen/qwen3-coder-480b-a35b-instruct");
    (lit "gpt-4-turbo", lit "moonshotai/kimi-k2-instruct-0905");
    (lit "gpt-4o", lit "deepseek-ai/deepseek-v3.1");
    (lit "claude-3-opus", lit "openai/gpt-oss-120b");
    (lit "claude-3-sonnet", lit "openai/gpt-oss-20b");
    (lit "gemini-pro", lit "qwen/qwen3-next-80b-a3b-thinking") ].

(** [MODEL_MAPPING] is an object literal: besides its own keys, a read
    by name also finds the members of [Object.prototype]. *)
Definition Object_prototype : list jsstring :=
  map lit
    [ "constructor"; "hasOwnProperty"; "isPrototypeOf"; "propertyIsEnumerable";
      "toLocaleString"; "toString"; "valueOf"; "__proto__";
      "__defineGetter__"; "__defineSetter__"; "__lookupGetter__";
      "__lookupSetter__" ]%string.

(** The value of [nimModel]: not yet set, an upstream model identifier,
    or a member of [Object.prototype] (a function or object, truthy). *)
Inductive nimModel :=
| Undefined
| ModelId (id : jsstring)
| PrototypeMember (name : jsstring).

Fixpoint lookup (k : jsstring) (table : list (jsstring * jsstring)) : option jsstring :=
  match table with
  | [] => None
  | (k', v) :: rest => if str_eqb k k' then Some v else lookup k rest
  end.

(** [MODEL_MAPPING[model]] *)
Definition MODEL_MAPPING_get (model : jsstring) : nimModel :=
  match lookup model MODEL_MAPPING with
  | Some id => ModelId id
  | None =>
      if existsb (str_eqb model) Object_prototype then PrototypeMember model
      else Undefined
  end.

(** [!nimModel] *)
Definition unset (m : nimModel) : bool :=
  match m with
  | Undefined => true
  | ModelId id => str_eqb id []
  | PrototypeMember _ => false
  end.

(** The file holds two copies of the chat-completions handler: the one
    of lines 73-266 and the older one of lines 308-475. *)
Inductive handler := First | Second.

Definition LARGE_MODEL : jsstring := lit "meta/llama-3.1-405b-instruct".
Definition MID_MODEL : jsstring := lit "meta/llama-3.1-70b-instruct".
Definition SMALL_MODEL : jsstring := lit "meta/llama-3.1-8b-instruct".

(** Lines 38-44. *)
Definition DETAILED_SYSTEM_PROMPT : jsstring :=
  lit "You are a helpful, knowledgeable assistant who provides comprehensive and detailed responses. When answering questions:"
  ++ [NEWLINE] ++ lit "- Give thorough explanations with context and examples"
  ++ [NEWLINE] ++ lit "- Break down complex topics into detailed sections"
  ++ [NEWLINE] ++ lit "- Provide multiple perspectives when relevant"
  ++ [NEWLINE] ++ lit "- Use elaboration rather than brevity"
  ++ [NEWLINE] ++ lit "- Aim for complete, well-rounded answers that fully address the question"
  ++ [NEWLINE] ++ lit "- Don't rush to conclude - explore the topic in depth".

(** The text line 122 appends to a system message. *)
Definition ELABORATION_SUFFIX : jsstring :=
  [NEWLINE; NEWLINE] ++
  lit "IMPORTANT: Provide detailed, comprehensive responses. Elaborate fully on your answers.".

(** The fields line 75 takes from [req.body]; [None] is [undefined]. *)
Module Body.
Record t := {
  model : jsstring;
  messages : list json;
  temperature : option json;
  max_tokens : option json;
  stream : option json;
  top_p : option json;
  presence_penalty : option json;
  frequency_penalty : option json
}.
End Body.

(** The object sent upstream; a [None] field is [undefined] or not
    written at all, and is left out of the serialised body. *)
Module NimRequest.
Record t := {
  model : nimModel;
  messages : list json;
  temperature : json;
  max_tokens : json;
  top_p : option json;
  presence_penalty : option json;
  frequency_penalty : option json;
  extra_body : option json;
  stream : json
}.
End NimRequest.

(** One element of [openaiResponse.choices]. *)
Module Choice.
Record t := {
  index : option json;
  role : option json;
  content : json;
  finish_reason : option json
}.
End Choice.

(** [openaiResponse], lines 224-250. *)
Module OpenAIResponse.
Record t := {
  id : jsstring;
  object : jsstring;
  created : Z;
  model : jsstring;
  choices : list Choice.t;
  usage : json
}.
End OpenAIResponse.

Section Proxy.

#[local] Set Default Proof Using "Type".

(** [JSON.parse]: the document a text denotes, [None] when it throws a
    [SyntaxError].  The handler is described for whatever the platform's
    parser returns. *)
Variable JSON_parse : jsstring -> option json.

(** [String.prototype.toLowerCase], the platform's Unicode mapping. *)
Variable toLowerCase : jsstring -> jsstring.

(* ================================================================== *)
(** ** Streaming path: one line (lines 166-213) *)
(* ================================================================== *)

Definition THINK_OPEN : jsstring := lit "<think>" ++ [NEWLINE].
Definition THINK_CLOSE : jsstring := lit "</think>" ++ [NEWLINE; NEWLINE].

(** The delimiters a line puts into the outbound stream, in order. *)
Inductive delimiter := OpenThink | CloseThink.

(** [data.choices?.[0]?.delta]; reading [choices] off [null] throws. *)
Definition firstDelta (data : json) : completion (option json) :=
  match data with
  | JNull => Throw
  | _ =>
      Normal
        match getProp (lit "choices") data with
        | None | Some JNull => None
        | Some choices =>
            match getIndex0 choices with
            | None | Some JNull => None
            | Some choice => getProp (lit "delta") choice
            end
        end
  end.

(** [data.choices[0].delta] after the handler's assignments to the
    delta, in the document that is serialised afterwards. *)
Definition withFirstDelta (delta' : json) (data : json) : json :=
  match getProp (lit "choices") data with
  | Some choices =>
      match getIndex0 choices with
      | Some choice =>
          setProp (lit "choices")
            (setIndex0 (setProp (lit "delta") delta' choice) choices) data
      | None => data
      end
  | None => data
  end.

(** Lines 180-194: [combinedContent] from the two fragments.  The result
    is the value of [combinedContent] with the delimiters it received,
    or [Throw] when a conversion to text threw, and in both cases the
    value [reasoningStarted] has at that point.  Line 186 stores the
    reasoning fragment as it is, text or not; every [+] and [+=] has a
    string on one side and so concatenates texts (where line 193 runs,
    the flag is not set, line 186 has not run and [combinedContent] is
    still the empty string). *)
Definition combineContent (reasoningStarted : bool) (reasoning content : option json)
  : completion (json * list delimiter) * bool :=
  let first : completion (json * list delimiter) * bool :=
    if truthy_opt reasoning && negb reasoningStarted then
      match toText_opt reasoning with
      | Normal r => (Normal (JStr (THINK_OPEN ++ r), [OpenThink]), true)
      | Throw => (Throw, reasoningStarted)
      end
    else
      match reasoning with
      | Some r =>
          if truthy r then (Normal (r, []), reasoningStarted)
          else (Normal (JStr [], []), reasoningStarted)
      | None => (Normal (JStr [], []), reasoningStarted)
      end
  in
  match first with
  | (Throw, started) => (Throw, started)
  | (Normal (combined, trace), started) =>
      if truthy_opt content && started then
        match (c <- toText_opt content ;;
               l <- toText combined ;;
               Normal (l ++ THINK_CLOSE ++ c)) with
        | Normal s => (Normal (JStr s, trace ++ [CloseThink]), false)
        | Throw => (Throw, started)
        end
      else if truthy_opt content then
        match (l <- toText combined ;;
               c <- toText_opt content ;;
               Normal (l ++ c)) with
        | Normal s => (Normal (JStr s, trace), started)
        | Throw => (Throw, started)
        end
      else (Normal (combined, trace), started)
  end.

(** Lines 175-208: the rewrite of the first choice's delta. *)
Definition transformEvent (cfg : Config) (reasoningStarted : bool) (data : json)
  : completion (json * list delimiter) * bool :=
  match firstDelta data with
  | Throw => (Throw, reasoningStarted)
  | Normal None => (Normal (data, []), reasoningStarted)
  | Normal (Some delta) =>
      if truthy delta then
        let reasoning := getProp (lit "reasoning_content") delta in
        let content := getProp (lit "content") delta in
        if SHOW_REASONING cfg then
          match combineContent reasoningStarted reasoning content with
          | (Throw, started) => (Throw, started)
          | (Normal (combined, trace), started) =>
              if truthy combined then
                let delta' :=
                  deleteProp (lit "reasoning_content")
                    (setProp (lit "content") combined delta) in
                (Normal (withFirstDelta delta' data, trace), started)
              else (Normal (data, []), started)
          end
        else
          let delta' :=
            deleteProp (lit "reasoning_content")
              (setProp (lit "content")
                 (match content with
                  | Some c => if truthy c then c else JStr []
                  | None => JStr []
                  end) delta) in
          (Normal (withFirstDelta delta' data, []), reasoningStarted)
      else (Normal (data, []), reasoningStarted)
  end.

(** What one line of the [forEach] does. *)
Record line_result := {
  written : list jsstring;       (* the [res.write] calls, in order *)
  started : bool;                (* [reasoningStarted] afterwards *)
  emitted : list delimiter       (* the delimiters inside [written] *)
}.

Definition DATA_PREFIX : jsstring := lit "data: ".
Definition DONE : jsstring := lit "[DONE]".

(** The body of [lines.forEach(line => ...)]. *)
Definition processLine (cfg : Config) (reasoningStarted : bool) (line : jsstring)
  : line_result :=
  if startsWith DATA_PREFIX line then
    if includes DONE line then
      {| written := [line ++ [NEWLINE]]; started := reasoningStarted; emitted := [] |}
    else
      match JSON_parse (slice 6 line) with
      | None =>
          {| written := [line ++ [NEWLINE]]; started := reasoningStarted; emitted := [] |}
      | Some data =>
          match transformEvent cfg reasoningStarted data with
          | (Normal (data', trace), started') =>
              {| written := [DATA_PREFIX ++ JSON_stringify data' ++ [NEWLINE; NEWLINE]];
                 started := started'; emitted := trace |}
          | (Throw, started') =>
              {| written := [line ++ [NEWLINE]]; started := started'; emitted := [] |}
          end
      end
  else
    {| written := []; started := reasoningStarted; emitted := [] |}.

(** [lines.forEach]: the lines in order, the flag carried along. *)
Fixpoint processLines (cfg : Config) (reasoningStarted : bool) (lines : list jsstring)
  : line_result :=
  match lines with
  | [] => {| written := []; started := reasoningStarted; emitted := [] |}
  | line :: rest =>
      let r := processLine cfg reasoningStarted line in
      let r' := processLines cfg (started r) rest in
      {| written := written r ++ written r';
         started := started r';
         emitted := emitted r ++ emitted r' |}
  end.

(* ================================================================== *)
(** ** Streaming path: chunks (lines 158-165) *)
(* ================================================================== *)

(** The two variables the [data] callback closes over. *)
Record stream_state := {
  buffer : jsstring;
  reasoningStarted : bool
}.

Definition initial : stream_state := {| buffer := []; reasoningStarted := false |}.

(** The callback once the chunk is text: [buffer += text], split, keep
    the last piece, process the others. *)
Definition onText (cfg : Config) (st : stream_state) (text : jsstring)
  : stream_state * line_result :=
  let buffer' := buffer st ++ text in
  let (popped, lines) := pop (split NEWLINE buffer') in
  let r := processLines cfg (reasoningStarted st) lines in
  ({| buffer := match popped with Some l => l | None => [] end;
      reasoningStarted := started r |}, r).

(** [response.data.on('data', chunk => ...)]. *)
Definition onData (cfg : Config) (st : stream_state) (chunk : list Z)
  : stream_state * line_result :=
  onText cfg st (chunk_toString chunk).

(** The complete lines a delivery hands to [forEach]. *)
Definition completeLines (st : stream_state) (text : jsstring) : list jsstring :=
  snd (pop (split NEWLINE (buffer st ++ text))).

(** A whole stream of text deliveries from a given state: the final
    state, the lines processed and what was written. *)
Fixpoint feedTexts (cfg : Config) (st : stream_state) (texts : list jsstring)
  : stream_state * list jsstring * line_result :=
  match texts with
  | [] => (st, [], {| written := []; started := reasoningStarted st; emitted := [] |})
  | t :: rest =>
      let (st1, r1) := onText cfg st t in
      let '(st2, lines2, r2) := feedTexts cfg st1 rest in
      (st2, completeLines st t ++ lines2,
       {| written := written r1 ++ written r2;
          started := started r2;
          emitted := emitted r1 ++ emitted r2 |})
  end.

(** A whole stream of chunks, each decoded as it arrives. *)
Definition feedChunks (cfg : Config) (st : stream_state) (chunks : list (list Z))
  : stream_state * list jsstring * line_result :=
  feedTexts cfg st (map chunk_toString chunks).

(** Everything written to the client for a stream of chunks. *)
Definition outbound (cfg : Config) (chunks : list (list Z)) : jsstring :=
  List.concat (written (snd (feedChunks cfg initial chunks))).

(** The bytes [res.write] sends for a string: its UTF-8 encoding, a
    surrogate without its pair going out as U+FFFD. *)
Fixpoint utf8Bytes (s : jsstring) : list Z :=
  match s with
  | [] => []
  | c :: rest =>
      if c <? 0x80 then c :: utf8Bytes rest
      else if c <? 0x800 then
        [Z.lor 0xC0 (Z.shiftr c 6); Z.lor 0x80 (Z.land c 0x3F)] ++ utf8Bytes rest
      else if isLeadSurrogate c then
        match rest with
        | t :: rest' =>
            if isTrailSurrogate t then
              let cp := 0x10000 + Z.shiftl (c - 0xD800) 10 + (t - 0xDC00) in
              [Z.lor 0xF0 (Z.shiftr cp 18);
               Z.lor 0x80 (Z.land (Z.shiftr cp 12) 0x3F);
               Z.lor 0x80 (Z.land (Z.shiftr cp 6) 0x3F);
               Z.lor 0x80 (Z.land cp 0x3F)] ++ utf8Bytes rest'
            else [0xEF; 0xBF; 0xBD] ++ utf8Bytes rest
        | [] => [0xEF; 0xBF; 0xBD]
        end
      else if isTrailSurrogate c then [0xEF; 0xBF; 0xBD] ++ utf8Bytes rest
      else
        [Z.lor 0xE0 (Z.shiftr c 12);
         Z.lor 0x80 (Z.land (Z.shiftr c 6) 0x3F);
         Z.lor 0x80 (Z.land c 0x3F)] ++ utf8Bytes rest
  end.

(** The bytes sent to the client for a stream of chunks, write after
    write. *)
Definition outboundBytes (cfg : Config) (chunks : list (list Z)) : list Z :=
  List.concat (map utf8Bytes (written (snd (feedChunks cfg initial chunks)))).

(* ================================================================== *)
(** ** Request adapter *)
(* ================================================================== *)

(** Lines 96-103 and 331-338: the defaults by substring of the
    lower-cased name.  The two copies differ in the last branch. *)
Definition fallbackModel (h : handler) (modelLower : jsstring) : jsstring :=
  if includes (lit "gpt-4") modelLower
     || includes (lit "claude-opus") modelLower
     || includes (lit "405b") modelLower
  then LARGE_MODEL
  else if includes (lit "claude") modelLower
          || includes (lit "gemini") modelLower
          || includes (lit "70b") modelLower
  then MID_MODEL
  else match h with
       | First => MID_MODEL
       | Second => SMALL_MODEL
       end.

(** Lines 78-105 (and 313-340).  [probe] is the outcome of the test call
    of lines 81-92: [Some status] when the call resolved with that
    status, [None] when it was rejected or failed; every failure is
    swallowed by the [catch] of line 93. *)
Definition resolveModel (h : handler) (probe : option Z) (model : jsstring) : nimModel :=
  let nimModel0 := MODEL_MAPPING_get model in
  if unset nimModel0 then
    let nimModel1 :=
      match probe with
      | Some status =>
          if (200 <=? status) && (status <? 300) then ModelId model else nimModel0
      | None => nimModel0
      end in
    if unset nimModel1 then ModelId (fallbackModel h (toLowerCase model))
    else nimModel1
  else nimModel0.

(** [m.role === 'system']; reading [role] off [null] throws. *)
Definition isSystem (m : json) : completion bool :=
  match m with
  | JNull => Throw
  | _ =>
      Normal
        match getProp (lit "role") m with
        | Some (JStr r) => str_eqb r (lit "system")
        | _ => false
        end
  end.

(** [messages.some(m => m.role === 'system')] *)
Fixpoint someSystem (messages : list json) : completion bool :=
  match messages with
  | [] => Normal false
  | m :: rest =>
      b <- isSystem m ;;
      if b then Normal true else someSystem rest
  end.

(** The callback of the [map] of lines 118-126. *)
Definition enhance (m : json) : completion json :=
  b <- isSystem m ;;
  if b then
    c <- toText_opt (getProp (lit "content") m) ;;
    Normal (setProp (lit "content") (JStr (c ++ ELABORATION_SUFFIX)) m)
  else Normal m.

Fixpoint mapM {A B} (f : A -> completion B) (l : list A) : completion (list B) :=
  match l with
  | [] => Normal []
  | x :: rest =>
      y <- f x ;;
      ys <- mapM f rest ;;
      Normal (y :: ys)
  end.

(** Lines 108-128. *)
Definition processedMessages (cfg : Config) (messages : list json)
  : completion (list json) :=
  if FORCE_DETAILED_RESPONSES cfg then
    hasSystemPrompt <- someSystem messages ;;
    if negb hasSystemPrompt then
      Normal (JObj [ (lit "role", JStr (lit "system"));
                     (lit "content", JStr DETAILED_SYSTEM_PROMPT) ] :: messages)
    else mapM enhance messages
  else Normal messages.

(** [v !== undefined ? v : d] *)
Definition ifDefined (v : option json) (d : json) : json :=
  match v with
  | Some x => x
  | None => d
  end.

(** [v || d] *)
Definition orElse (v : option json) (d : json) : json :=
  match v with
  | Some x => if truthy x then x else d
  | None => d
  end.

(** [extra_body], lines 139 and 348. *)
Definition thinkingBody (cfg : Config) : option json :=
  if ENABLE_THINKING_MODE cfg then
    Some (JObj [ (lit "chat_template_kwargs", JObj [ (lit "thinking", JBool true) ]) ])
  else None.

(** Lines 131-141 for the first copy, 343-350 for the second. *)
Definition nimRequest (h : handler) (cfg : Config) (nimModel : nimModel)
    (messages : list json) (body : Body.t) : NimRequest.t :=
  match h with
  | First =>
      {| NimRequest.model := nimModel;
         NimRequest.messages := messages;
         NimRequest.temperature := ifDefined (Body.temperature body) (JNum (lit "0.85"));
         NimRequest.max_tokens := orElse (Body.max_tokens body) (JNum (lit "4096"));
         NimRequest.top_p := Some (ifDefined (Body.top_p body) (JNum (lit "0.95")));
         NimRequest.presence_penalty :=
           Some (ifDefined (Body.presence_penalty body) (JNum (lit "0.6")));
         NimRequest.frequency_penalty :=
           Some (ifDefined (Body.frequency_penalty body) (JNum (lit "0.3")));
         NimRequest.extra_body := thinkingBody cfg;
         NimRequest.stream := orElse (Body.stream body) (JBool false) |}
  | Second =>
      {| NimRequest.model := nimModel;
         NimRequest.messages := messages;
         NimRequest.temperature := orElse (Body.temperature body) (JNum (lit "0.6"));
         NimRequest.max_tokens := orElse (Body.max_tokens body) (JNum (lit "9024"));
         NimRequest.top_p := None;
         NimRequest.presence_penalty := None;
         NimRequest.frequency_penalty := None;
         NimRequest.extra_body := thinkingBody cfg;
         NimRequest.stream := orElse (Body.stream body) (JBool false) |}
  end.

(** The upstream request of a handler: model resolution, prompt
    augmentation (first copy only) and defaults. *)
Definition upstreamRequest (h : handler) (cfg : Config) (probe : option Z)
    (body : Body.t) : completion NimRequest.t :=
  let nimModel := resolveModel h probe (Body.model body) in
  messages <- match h with
              | First => processedMessages cfg (Body.messages body)
              | Second => Normal (Body.messages body)
              end ;;
  Normal (nimRequest h cfg nimModel messages body).

(* ================================================================== *)
(** ** Response adapter, non-streaming path (lines 224-252) *)
(* ================================================================== *)

(** [v?.k] *)
Definition optProp (k : jsstring) (v : option json) : option json :=
  match v with
  | None | Some JNull => None
  | Some x => getProp k x
  end.

(** The callback of [response.data.choices.map]. *)
Definition transformChoice (cfg : Config) (choice : json) : completion Choice.t :=
  match choice with
  | JNull => Throw
  | _ =>
      let message := getProp (lit "message") choice in
      let fullContent := orElse (optProp (lit "content") message) (JStr []) in
      let reasoning := optProp (lit "reasoning_content") message in
      fullContent' <-
        (if SHOW_REASONING cfg && truthy_opt reasoning then
           r <- toText_opt reasoning ;;
           c <- toText fullContent ;;
           Normal (JStr (THINK_OPEN ++ r ++ [NEWLINE] ++ THINK_CLOSE ++ c))
         else Normal fullContent) ;;
      match message with
      | None | Some JNull => Throw
      | Some msg =>
          Normal {| Choice.index := getProp (lit "index") choice;
                    Choice.role := getProp (lit "role") msg;
                    Choice.content := fullContent';
                    Choice.finish_reason := getProp (lit "finish_reason") choice |}
      end
  end.

Definition ZERO_USAGE : json :=
  JObj [ (lit "prompt_tokens", JNum (lit "0"));
         (lit "completion_tokens", JNum (lit "0"));
         (lit "total_tokens", JNum (lit "0")) ].

Definition decimal (n : Z) : jsstring := lit (NilZero.string_of_int (Z.to_int n)).

(** Lines 224-250; [now] and [now'] are the two readings of [Date.now()],
    [data] is [response.data]. *)
Definition openaiResponse (cfg : Config) (now now' : Z) (model : jsstring)
    (data : json) : completion OpenAIResponse.t :=
  match data with
  | JNull => Throw
  | _ =>
      match getProp (lit "choices") data with
      | Some (JArr items) =>
          choices <- mapM (transformChoice cfg) items ;;
          Normal {| OpenAIResponse.id := lit "chatcmpl-" ++ decimal now;
                    OpenAIResponse.object := lit "chat.completion";
                    OpenAIResponse.created := now' / 1000;
                    OpenAIResponse.model := model;
                    OpenAIResponse.choices := choices;
                    OpenAIResponse.usage := orElse (getProp (lit "usage") data) ZERO_USAGE |}
      | _ => Throw
      end
  end.

(** The first handler up to line 253.  [post] is the call of line 144:
    the body of the upstream's answer, [None] when the call is rejected.
    A request with a truthy [stream] is answered by the stream callbacks
    ([None] here); any other gets [openaiResponse].  A [Throw] reaches
    the [catch] of line 255, which answers with an error object. *)
Definition chatCompletion (cfg : Config) (probe : option Z)
    (post : NimRequest.t -> option json) (now now' : Z) (body : Body.t)
  : completion (option OpenAIResponse.t) :=
  request <- upstreamRequest First cfg probe body ;;
  match post request with
  | None => Throw
  | Some data =>
      if truthy_opt (Body.stream body) then Normal None
      else
        response <- openaiResponse cfg now now' (Body.model body) data ;;
        Normal (Some response)
  end.

(** The probe made the handler adopt the caller's name. *)
Definition adopted (probe : option Z) : bool :=
  match probe with
  | Some status => (200 <=? status) && (status <? 300)
  | None => false
  end.

Definition systemRole (m : json) : bool :=
  match getProp (lit "role") m with
  | Some (JStr r) => str_eqb r (lit "system")
  | _ => false
  end.

(** An element of [messages] the augmentation is specified for: not
    [null], and with a text [content] when its role is [system]. *)
Definition isMessage (m : json) : bool :=
  match m with
  | JNull => false
  | _ =>
      negb (systemRole m) ||
      match getProp (lit "content") m with
      | Some (JStr _) => true
      | _ => false
      end
  end.

Definition SYSTEM_MESSAGE : json :=
  JObj [ (lit "role", JStr (lit "system"));
         (lit "content", JStr DETAILED_SYSTEM_PROMPT) ].

(** Bytes below 0x80. *)
Definition ascii (bytes : list Z) : Prop :=
  Forall (fun b => 0 <= b <= 0x7F) bytes.


(** The buffer of a state holds no newline: true at the start and after
    every delivery. *)
Definition held (st : stream_state) : Prop :=
  split NEWLINE (buffer st) = [buffer st].


(** What the [map] of lines 118-126 makes of one message. *)
Definition enhanced (m : json) : json :=
  if systemRole m then
    match getProp (lit "content") m with
    | Some (JStr c) => setProp (lit "content") (JStr (c ++ ELABORATION_SUFFIX)) m
    | _ => m
    end
  else m.


(* ================================================================== *)
(** ** Delimiter bookkeeping *)
(* ================================================================== *)

(** Reading a sequence of delimiters from the state [opened]: an opening
    delimiter is accepted only when none is open, a closing one only
    when one is; the result is the state at the end. *)
Fixpoint track (opened : bool) (trace : list delimiter) : option bool :=
  match trace with
  | [] => Some opened
  | OpenThink :: rest => if opened then None else track true rest
  | CloseThink :: rest => if opened then track false rest else None
  end.

Definition opens (trace : list delimiter) : Z :=
  Z.of_nat (List.length (filter (fun d => match d with OpenThink => true | _ => false end) trace)).

Definition closes (trace : list delimiter) : Z :=
  Z.of_nat (List.length (filter (fun d => match d with CloseThink => true | _ => false end) trace)).

(** The text of a fragment that is absent, [null] or text. *)
Definition fragment (v : option json) : jsstring :=
  match v with
  | Some (JStr s) => s
  | _ => []
  end.

(** The delimiters lines 182-194 add for two text fragments. *)
Definition delimiters (reasoningStarted : bool) (reasoning content : jsstring)
  : list delimiter :=
  (if negb (str_eqb reasoning []) && negb reasoningStarted then [OpenThink] else []) ++
  (if negb (str_eqb content []) && (reasoningStarted || negb (str_eqb reasoning []))
   then [CloseThink] else []).

(** The fragments with the given delimiters around the reasoning. *)
Definition render (trace : list delimiter) (reasoning content : jsstring) : jsstring :=
  match trace with
  | [] => reasoning ++ content
  | [OpenThink] => THINK_OPEN ++ reasoning ++ content
  | [CloseThink] => reasoning ++ THINK_CLOSE ++ content
  | _ => THINK_OPEN ++ reasoning ++ THINK_CLOSE ++ content
  end.

(** The content fragment of the line's first delta, if the line parses
    and has one, converts to text. *)
Definition contentConverts (line : jsstring) : bool :=
  match JSON_parse (slice 6 line) with
  | Some data =>
      match firstDelta data with
      | Normal (Some delta) =>
          match toText_opt (getProp (lit "content") delta) with
          | Normal _ => true
          | Throw => false
          end
      | _ => true
      end
  | None => true
  end.

(** A fragment as the event type has it: absent, [null] or text. *)
Definition textual (v : option json) : bool :=
  match v with
  | None | Some JNull | Some (JStr _) => true
  | _ => false
  end.

(** A choice of the upstream's answer as the response type has it: an
    object with a [message] object whose [content] and
    [reasoning_content] are absent, [null] or text. *)
Definition isChoice (choice : json) : bool :=
  match choice with
  | JNull => false
  | _ =>
      match getProp (lit "message") choice with
      | None | Some JNull => false
      | Some message =>
          textual (getProp (lit "content") message)
          && textual (getProp (lit "reasoning_content") message)
      end
  end.


(* ================================================================== *)
(** ** Sample events and lines *)
(* ================================================================== *)

(** A quoted ASCII name, as it stands in a serialised document. *)
Definition quoted (s : string) : jsstring := [QUOTE] ++ lit s ++ [QUOTE].

(** [{"choices":[{"delta": delta}]}] *)
Definition deltaEvent (delta : json) : json :=
  JObj [ (lit "choices", JArr [ JObj [ (lit "delta", delta) ] ]) ].

(** The line the upstream sends for a document. *)
Definition eventLine (data : json) : jsstring := DATA_PREFIX ++ JSON_stringify data.

(** The frame line 209 writes for a document. *)
Definition frame (data : json) : jsstring :=
  DATA_PREFIX ++ JSON_stringify data ++ [NEWLINE; NEWLINE].

(** The reasoning display switched on, the other toggles as deployed. *)
Definition displaying : Config :=
  {| SHOW_REASONING := true;
     ENABLE_THINKING_MODE := false;
     FORCE_DETAILED_RESPONSES := true |}.

(** The bytes of [data: {"choices":[{"delta":{"content":"e"}}]}], the [e] with an acute accent, and its
    and its newline, around the two bytes [C3 A9] of the letter. *)
Definition accentHead : list Z :=
  lit "data: {" ++ quoted "choices" ++ lit ":[{" ++ quoted "delta" ++ lit ":{" ++
  quoted "content" ++ lit ":" ++ [QUOTE].
Definition accentTail : list Z := [QUOTE] ++ lit "}}]}" ++ [NEWLINE].
Definition accentBytes : list Z := accentHead ++ [0xC3; 0xA9] ++ accentTail.

(** The event as sent, and as read when the letter is cut in two. *)
Definition accentEvent : json :=
  deltaEvent (JObj [ (lit "content", JStr [0xE9]) ]).
Definition brokenEvent : json :=
  deltaEvent (JObj [ (lit "content", JStr [REPLACEMENT; REPLACEMENT]) ]).

(** An event line cut short after the letter, so that its payload is
    not a JSON document: its bytes, the text they denote, and the text
    read when the letter is cut in two. *)
Definition truncatedLine : list Z := accentHead ++ [0xC3; 0xA9].
Definition truncatedText : jsstring := accentHead ++ [0xE9].
Definition garbledText : jsstring := accentHead ++ [REPLACEMENT; REPLACEMENT].

(** The stream of the reassembly test: one content delta and the blank
    line after it, all ASCII. *)
Definition abEvent : json := deltaEvent (JObj [ (lit "content", JStr (lit "ab")) ]).
Definition abBytes : list Z := eventLine abEvent ++ [NEWLINE; NEWLINE].

(** A content delta whose text is the sentinel, with a reasoning
    fragment beside it. *)
Definition quotingEvent : json :=
  deltaEvent (JObj [ (lit "content", JStr (lit "[DONE]"));
                     (lit "reasoning_content", JStr (lit "hidden")) ]).

(** An event with two choices, the second carrying reasoning. *)
Definition twoChoices : json :=
  JObj [ (lit "choices",
          JArr [ JObj [ (lit "index", JNum (lit "0"));
                        (lit "delta", JObj [ (lit "content", JStr (lit "a"));
                                             (lit "reasoning_content", JStr (lit "r0")) ]) ];
                 JObj [ (lit "index", JNum (lit "1"));
                        (lit "delta", JObj [ (lit "reasoning_content", JStr (lit "r1")) ]) ] ]) ].

(** The two events of the reasoning test, and two first deltas that carry
    no text: an empty reasoning fragment, and the role delta that opens
    a stream. *)
Definition reasoningEvent : json :=
  deltaEvent (JObj [ (lit "reasoning_content", JStr (lit "R")) ]).
Definition contentEvent : json :=
  deltaEvent (JObj [ (lit "content", JStr (lit "C")) ]).
Definition emptyReasoningEvent : json :=
  deltaEvent (JObj [ (lit "reasoning_content", JStr []) ]).
Definition roleEvent : json :=
  deltaEvent (JObj [ (lit "role", JStr (lit "assistant"));
                     (lit "content", JStr []);
                     (lit "reasoning_content", JNull) ]).

(** An event outside the event type: its content fragment is an object
    with a key [toString] of its own. *)
Definition shadowingEvent : json :=
  deltaEvent (JObj [ (lit "reasoning_content", JStr (lit "r"));
                     (lit "content", JObj [ (lit "toString", JNum (lit "1")) ]) ]).

(** A request, with and without a system message. *)
Definition userMessage : json :=
  JObj [ (lit "role", JStr (lit "user")); (lit "content", JStr (lit "hi")) ].
Definition systemMessage : json :=
  JObj [ (lit "role", JStr (lit "system")); (lit "content", JStr (lit "Be brief."));
         (lit "name", JStr (lit "ops")) ].
Definition request (model : jsstring) (messages : list json) : Body.t :=
  {| Body.model := model; Body.messages := messages;
     Body.temperature := None; Body.max_tokens := None; Body.stream := None;
     Body.top_p := None; Body.presence_penalty := None;
     Body.frequency_penalty := None |}.

(** An upstream that answers every request with one choice. *)
Definition answer : json :=
  JObj [ (lit "model", JStr (lit "qwen/qwen3-coder-480b-a35b-instruct"));
         (lit "choices",
          JArr [ JObj [ (lit "index", JNum (lit "0"));
                        (lit "message", JObj [ (lit "role", JStr (lit "assistant"));
                                               (lit "content", JStr (lit "hello")) ]);
                        (lit "finish_reason", JStr (lit "stop")) ] ]) ].
Definition answering (r : NimRequest.t) : option json := Some answer.

(** The fields of an answer whose one choice carries reasoning, and of
    one whose choice has no message. *)
Definition reasonedChoice : json :=
  JObj [ (lit "index", JNum (lit "0"));
         (lit "message", JObj [ (lit "role", JStr (lit "assistant"));
                                (lit "content", JStr (lit "hello"));
                                (lit "reasoning_content", JStr (lit "because")) ]);
         (lit "finish_reason", JStr (lit "stop")) ].
Definition reasonedFields : list (jsstring * json) :=
  [ (lit "choices", JArr [ reasonedChoice ]) ].
Definition strayChoice : json := JObj [ (lit "index", JNum (lit "0")) ].
Definition strayAnswer : json :=
  JObj [ (lit "choices", JArr [ reasonedChoice; strayChoice ]) ].

(** All three toggles off. *)
Definition plain : Config :=
  {| SHOW_REASONING := false;
     ENABLE_THINKING_MODE := false;
     FORCE_DETAILED_RESPONSES := false |}.

(* ================================================================== *)
(** ** [GET /v1/models] (lines 58-70) *)
(* ================================================================== *)

(** The object built for one key; [now] is the reading of [Date.now()]
    taken for it. *)
Definition modelEntry (now : Z) (model : jsstring) : json :=
  JObj [ (lit "id", JStr model);
         (lit "object", JStr (lit "model"));
         (lit "created", JNum (decimal now));
         (lit "owned_by", JStr (lit "nvidia-nim-proxy")) ].

(** [Object.keys(MODEL_MAPPING).map(...)]; [clock i] is the reading of
    [Date.now()] for the key of index [i]. *)
Fixpoint modelEntries (clock : nat -> Z) (i : nat) (keys : list jsstring) : list json :=
  match keys with
  | [] => []
  | model :: rest => modelEntry (clock i) model :: modelEntries clock (S i) rest
  end.

(** The body of the answer. *)
Definition listModels (clock : nat -> Z) : json :=
  JObj [ (lit "object", JStr (lit "list"));
         (lit "data", JArr (modelEntries clock 0 (map fst MODEL_MAPPING))) ].

(* ================================================================== *)
(** * Properties *)
(* ================================================================== *)

(** ** Strings and lists *)

Lemma str_eqb_eq (a b : jsstring) : str_eqb a b = true <-> a = b.
Proof.
  revert b; induction a as [|x a IH]; intros [|y b]; simpl;
    try (split; [discriminate | discriminate]); [split; reflexivity|].
  rewrite andb_true_iff, Z.eqb_eq, IH. split.
  - intros [-> ->]. reflexivity.
  - intros H. injection H as -> ->. split; reflexivity.
Qed.

Lemma str_eqb_refl (a : jsstring) : str_eqb a a = true.
Proof. now apply str_eqb_eq. Qed.

Lemma str_eqb_neq (a b : jsstring) : str_eqb a b = false <-> a <> b.
Proof.
  split.
  - intros H E. apply str_eqb_eq in E. congruence.
  - intros H. destruct (str_eqb a b) eqn:E; [|reflexivity].
    apply str_eqb_eq in E. contradiction.
Qed.

Lemma split_nonempty (sep : Z) (s : jsstring) : split sep s <> [].
Proof.
  destruct s as [|c s]; simpl; [discriminate|].
  destruct (c =? sep); [discriminate|].
  destruct (split sep s); discriminate.
Qed.

Lemma removelast_cons {A} (x : A) (l : list A) :
  l <> [] -> removelast (x :: l) = x :: removelast l.
Proof. destruct l; [contradiction | reflexivity]. Qed.

Lemma last_cons {A} (x : A) (l : list A) (d : A) :
  l <> [] -> last (x :: l) d = last l d.
Proof. destruct l; [contradiction | reflexivity]. Qed.

(** Splitting a text that grew at its end: the complete pieces stay,
    and only the last piece has to be split again with the new text. *)
Lemma split_app (sep : Z) (x t : jsstring) :
  split sep (x ++ t) =
  removelast (split sep x) ++ split sep (last (split sep x) [] ++ t).
Proof.
  induction x as [|c x IH]; [reflexivity|].
  pose proof (split_nonempty sep x) as Hne.
  cbn [app split]. destruct (c =? sep) eqn:Hc.
  - rewrite removelast_cons, last_cons by assumption.
    cbn [app]. now rewrite IH.
  - rewrite IH. destruct (split sep x) as [|p [|p2 ps]] eqn:Hx; [contradiction| |].
    + cbn [removelast last app split]. now rewrite Hc.
    + change (removelast (p :: p2 :: ps)) with (p :: removelast (p2 :: ps)).
      change (removelast ((c :: p) :: p2 :: ps)) with ((c :: p) :: removelast (p2 :: ps)).
      change (last ((c :: p) :: p2 :: ps) []) with (last (p :: p2 :: ps) []).
      reflexivity.
Qed.

Lemma last_app_r {A} (l l' : list A) (d : A) :
  l' <> [] -> last (l ++ l') d = last l' d.
Proof.
  intros Hne. induction l as [|x l IH]; [reflexivity|].
  cbn [app]. rewrite last_cons; [exact IH|].
  destruct l; [exact Hne | discriminate].
Qed.

Lemma removelast_split_app (sep : Z) (x t : jsstring) :
  removelast (split sep (x ++ t)) =
  removelast (split sep x) ++ removelast (split sep (last (split sep x) [] ++ t)).
Proof.
  rewrite split_app. apply removelast_app, split_nonempty.
Qed.

Lemma last_split_app (sep : Z) (x t : jsstring) :
  last (split sep (x ++ t)) [] = last (split sep (last (split sep x) [] ++ t)) [].
Proof.
  rewrite split_app. apply last_app_r, split_nonempty.
Qed.

(** ** The buffer: fragmentation of the decoded text *)

Lemma pop_split (s : jsstring) :
  pop (split NEWLINE s) =
  (Some (last (split NEWLINE s) []), removelast (split NEWLINE s)).
Proof.
  pose proof (split_nonempty NEWLINE s).
  unfold pop. destruct (split NEWLINE s); [contradiction | reflexivity].
Qed.

Lemma processLines_app (cfg : Config) (st : bool) (l1 l2 : list jsstring) :
  processLines cfg st (l1 ++ l2) =
  let r1 := processLines cfg st l1 in
  let r2 := processLines cfg (started r1) l2 in
  {| written := written r1 ++ written r2;
     started := started r2;
     emitted := emitted r1 ++ emitted r2 |}.
Proof.
  revert st; induction l1 as [|line l1 IH]; intros st.
  - cbn. now destruct (processLines cfg st l2).
  - cbn [app processLines]. rewrite IH. cbn. now rewrite !app_assoc.
Qed.

(** The piece kept in the buffer holds no newline. *)
Lemma split_last_piece (sep : Z) (s : jsstring) :
  split sep (last (split sep s) []) = [last (split sep s) []].
Proof.
  induction s as [|c s IH]; [reflexivity|].
  pose proof (split_nonempty sep s) as Hne.
  cbn [split]. destruct (c =? sep) eqn:Hc.
  - now rewrite last_cons.
  - destruct (split sep s) as [|p [|p2 ps]] eqn:Hs; [contradiction| |].
    + cbn [last] in *. cbn [split]. now rewrite Hc, IH.
    + change (last ((c :: p) :: p2 :: ps) []) with (last (p :: p2 :: ps) []).
      exact IH.
Qed.

Lemma held_initial : held initial.
Proof. reflexivity. Qed.

Lemma onText_spec (cfg : Config) (st : stream_state) (text : jsstring) :
  onText cfg st text =
  let pieces := split NEWLINE (buffer st ++ text) in
  let r := processLines cfg (reasoningStarted st) (removelast pieces) in
  ({| buffer := last pieces []; reasoningStarted := started r |}, r).
Proof. unfold onText. now rewrite pop_split. Qed.

Lemma onText_held (cfg : Config) (st : stream_state) (text : jsstring) :
  held (fst (onText cfg st text)).
Proof. rewrite onText_spec. apply split_last_piece. Qed.

(** A stream of text deliveries is handled as its concatenation: the
    lines processed are the complete lines of [buffer ++ concat texts],
    processed once each and in order, and the last piece stays in the
    buffer. *)
Lemma feedTexts_concat (cfg : Config) (texts : list jsstring) (st : stream_state) :
  held st ->
  let total := buffer st ++ List.concat texts in
  let lines := removelast (split NEWLINE total) in
  let r := processLines cfg (reasoningStarted st) lines in
  feedTexts cfg st texts =
  ({| buffer := last (split NEWLINE total) []; reasoningStarted := started r |},
   lines, r).
Proof.
  revert st; induction texts as [|t rest IH]; intros st Hst; cbv zeta.
  - cbn [List.concat feedTexts]. rewrite app_nil_r, Hst.
    destruct st; reflexivity.
  - cbn [List.concat feedTexts]. unfold completeLines.
    rewrite pop_split, onText_spec. cbv zeta. cbn [snd].
    rewrite IH by (apply split_last_piece). cbv zeta. cbn [buffer reasoningStarted].
    rewrite app_assoc.
    rewrite (removelast_split_app NEWLINE (buffer st ++ t) (List.concat rest)).
    rewrite (last_split_app NEWLINE (buffer st ++ t) (List.concat rest)).
    rewrite processLines_app. reflexivity.
Qed.

(** Fragmentation of the text: two sequences of deliveries with the
    same concatenation give the same final state, the same complete
    lines and the same writes. *)
Lemma feedTexts_fragmentation (cfg : Config) (texts texts' : list jsstring) :
  List.concat texts = List.concat texts' ->
  feedTexts cfg initial texts = feedTexts cfg initial texts'.
Proof.
  intros H. rewrite !feedTexts_concat by apply held_initial.
  cbv zeta. now rewrite H.
Qed.

(** ** [chunk.toString()] on ASCII bytes *)

Lemma decode_ascii (bytes : list Z) : ascii bytes -> decode Idle bytes = bytes.
Proof.
  induction 1 as [|b bytes Hb _ IH]; [reflexivity|].
  cbn [decode feed]. unfold lead.
  destruct (Z.leb_spec b 0x7F); [|lia]. cbn [app]. now rewrite IH.
Qed.

Lemma chunk_toString_ascii (bytes : list Z) :
  ascii bytes -> chunk_toString bytes = bytes.
Proof.
  intros H. unfold chunk_toString. rewrite decode_ascii by assumption.
  induction H as [|b bytes Hb _ IH]; [reflexivity|].
  cbn [flat_map]. rewrite IH. unfold utf16.
  destruct (Z.ltb_spec b 0x10000); [reflexivity | lia].
Qed.

Lemma map_chunk_toString_ascii (chunks : list (list Z)) :
  Forall ascii chunks -> map chunk_toString chunks = chunks.
Proof.
  induction 1 as [|c cs Hc _ IH]; [reflexivity|].
  cbn [map]. now rewrite chunk_toString_ascii, IH.
Qed.

(** Chunks of ASCII bytes: the fragmentation does not matter. *)
Lemma feedChunks_ascii_fragmentation (cfg : Config) (chunks chunks' : list (list Z)) :
  Forall ascii chunks -> Forall ascii chunks' ->
  List.concat chunks = List.concat chunks' ->
  feedChunks cfg initial chunks = feedChunks cfg initial chunks'.
Proof.
  intros H H' E. unfold feedChunks. apply feedTexts_fragmentation.
  now rewrite !map_chunk_toString_ascii.
Qed.


Lemma ascii_checked (bytes : list Z) :
  forallb (fun b => (0 <=? b) && (b <=? 0x7F)) bytes = true -> ascii bytes.
Proof.
  intros H. apply Forall_forall. intros b Hb.
  apply (proj1 (forallb_forall _ _) H) in Hb.
  apply andb_true_iff in Hb as [Hlo Hhi].
  apply Z.leb_le in Hlo, Hhi. now split.
Qed.

(** The reassembly test: the stream cut at any byte position gives what
    the uncut stream gives. *)
Lemma reassembly_at_every_cut (cfg : Config) (n : nat) :
  feedChunks cfg initial [firstn n abBytes; skipn n abBytes] =
  feedChunks cfg initial [abBytes].
Proof.
  assert (Hall : ascii abBytes) by (apply ascii_checked; reflexivity).
  apply feedChunks_ascii_fragmentation.
  - unfold ascii in Hall. rewrite <- (firstn_skipn n abBytes) in Hall.
    apply Forall_app in Hall as [H1 H2].
    exact (Forall_cons _ H1 (Forall_cons _ H2 (Forall_nil _))).
  - exact (Forall_cons _ Hall (Forall_nil _)).
  - cbn [List.concat]. now rewrite !app_nil_r, firstn_skipn.
Qed.

(** ** Reading and writing the first delta *)

Lemma assoc_setField (k : jsstring) (v : json) (fields : list (jsstring * json)) :
  assoc k (setField k v fields) = Some v.
Proof.
  induction fields as [|[k' v'] rest IH]; cbn [setField assoc].
  - now rewrite str_eqb_refl.
  - destruct (str_eqb k k') eqn:E; cbn [assoc]; now rewrite E.
Qed.

Lemma assoc_deleted (k : jsstring) (fields : list (jsstring * json)) :
  assoc k (filter (fun kv => negb (str_eqb k (fst kv))) fields) = None.
Proof.
  induction fields as [|[k' v'] rest IH]; [reflexivity|].
  cbn [filter fst]. destruct (str_eqb k k') eqn:E; cbn [negb]; [exact IH|].
  cbn [assoc]. now rewrite E.
Qed.

(** After [delete o.k] the key is gone. *)
Lemma getProp_deleteProp_obj (k : jsstring) (fields : list (jsstring * json)) :
  getProp k (deleteProp k (JObj fields)) = None.
Proof. apply assoc_deleted. Qed.

(** The shape of a document whose first delta can be read. *)
Lemma firstDelta_path (data delta : json) :
  firstDelta data = Normal (Some delta) ->
  exists fields choices cfields,
    data = JObj fields /\
    assoc (lit "choices") fields = Some choices /\
    getIndex0 choices = Some (JObj cfields) /\
    (match choices with JArr _ | JObj _ => True | _ => False end) /\
    assoc (lit "delta") cfields = Some delta.
Proof.
  unfold firstDelta. intros H.
  destruct data as [| | | | |fields]; try discriminate;
    cbn [getProp] in H; try discriminate.
  destruct (assoc (lit "choices") fields) as [choices|] eqn:Hc; [|discriminate].
  destruct choices as [| | |s|items|ofields]; try discriminate;
    cbn [getIndex0] in H.
  - destruct s as [|c s]; discriminate.
  - destruct items as [|choice items]; [discriminate|].
    destruct choice as [| | | | |cfields]; try discriminate.
    cbn [getProp] in H. exists fields, (JArr (JObj cfields :: items)), cfields.
    repeat split; try assumption; congruence.
  - destruct (assoc (lit "0") ofields) as [choice|] eqn:H0; [|discriminate].
    destruct choice as [| | | | |cfields]; try discriminate.
    cbn [getProp] in H. exists fields, (JObj ofields), cfields.
    repeat split; try assumption; congruence.
Qed.

(** What the handler assigned to the first delta is what a later read
    of [data.choices[0].delta] finds. *)
Lemma firstDelta_withFirstDelta (data delta delta' : json) :
  firstDelta data = Normal (Some delta) ->
  firstDelta (withFirstDelta delta' data) = Normal (Some delta').
Proof.
  intros H. destruct (firstDelta_path _ _ H)
    as (fields & choices & cfields & -> & Hc & H0 & Hshape & Hd).
  unfold withFirstDelta. cbn [getProp]. rewrite Hc, H0.
  cbn [setProp]. unfold firstDelta. cbn [getProp]. rewrite assoc_setField.
  destruct choices as [| | | |items|ofields]; try contradiction.
  - destruct items as [|c items]; [discriminate|].
    cbn [setIndex0 getIndex0 getProp]. now rewrite assoc_setField.
  - cbn [setIndex0 getIndex0]. rewrite assoc_setField.
    cbn [getProp]. now rewrite assoc_setField.
Qed.

(** The assignment touches the first element of [choices] only. *)
Lemma choices_withFirstDelta (data delta' c0 : json) (others : list json) :
  getProp (lit "choices") data = Some (JArr (c0 :: others)) ->
  exists c0',
    getProp (lit "choices") (withFirstDelta delta' data) = Some (JArr (c0' :: others)).
Proof.
  intros H. destruct data as [| | | | |fields]; try discriminate.
  unfold withFirstDelta. rewrite H. cbn [getIndex0 setIndex0 setProp getProp].
  eexists. apply assoc_setField.
Qed.

(** The document written for an event is the parsed one, or the parsed
    one with its first delta assigned. *)
Lemma transformEvent_result (cfg : Config) (st st' : bool) (data out : json)
    (trace : list delimiter) :
  transformEvent cfg st data = (Normal (out, trace), st') ->
  out = data \/ exists delta', out = withFirstDelta delta' data.
Proof.
  unfold transformEvent. intros H.
  destruct (firstDelta data) as [[delta|]|]; try (injection H as <- _ _; now left);
    [|discriminate].
  destruct (truthy delta); [|injection H as <- _ _; now left].
  destruct (SHOW_REASONING cfg).
  - destruct (combineContent st _ _) as [[[combined tr]|] started']; [|discriminate].
    destruct (truthy combined); injection H as <- _ _; [right; eauto | now left].
  - injection H as <- _ _. right; eauto.
Qed.

(** With the reasoning display off the rewrite throws on [null] only. *)
Lemma transformEvent_off (cfg : Config) (st st' : bool) (data : json) :
  SHOW_REASONING cfg = false ->
  transformEvent cfg st data = (Throw, st') -> data = JNull.
Proof.
  unfold transformEvent. intros Hoff H. rewrite Hoff in H.
  destruct data; try reflexivity; cbn [firstDelta] in H.
  all: repeat match type of H with
       | context [match ?x with _ => _ end] => destruct x
       end; discriminate.
Qed.

(** ** One line *)

(** A line carrying the sentinel text anywhere is written back as it
    is, whatever its payload. *)
Lemma sentinel_anywhere (cfg : Config) (st : bool) (line : jsstring) :
  startsWith DATA_PREFIX line = true ->
  includes DONE line = true ->
  processLine cfg st line =
  {| written := [line ++ [NEWLINE]]; started := st; emitted := [] |}.
Proof. intros Hp Hd. unfold processLine. now rewrite Hp, Hd. Qed.

(** A line without the prefix is dropped. *)
Lemma noise_dropped (cfg : Config) (st : bool) (line : jsstring) :
  startsWith DATA_PREFIX line = false ->
  processLine cfg st line = {| written := []; started := st; emitted := [] |}.
Proof. intros Hp. unfold processLine. now rewrite Hp. Qed.

(** The line of a document the parser reads back, free of the sentinel
    text, is answered by the frame of the rewritten document. *)
Lemma processLine_event (cfg : Config) (st st' : bool) (data out : json)
    (trace : list delimiter) :
  JSON_parse (JSON_stringify data) = Some data ->
  includes DONE (eventLine data) = false ->
  transformEvent cfg st data = (Normal (out, trace), st') ->
  processLine cfg st (eventLine data) =
  {| written := [frame out]; started := st'; emitted := trace |}.
Proof.
  intros Hparse Hdone Ht. unfold processLine. rewrite Hdone.
  change (startsWith DATA_PREFIX (eventLine data)) with true.
  change (slice 6 (eventLine data)) with (JSON_stringify data).
  now rewrite Hparse, Ht.
Qed.

(** The [catch] of line 210 and the sentinel branch write the same. *)
Lemma rejected_payload (cfg : Config) (st : bool) (line : jsstring) :
  startsWith DATA_PREFIX line = true ->
  JSON_parse (slice 6 line) = None ->
  processLine cfg st line =
  {| written := [line ++ [NEWLINE]]; started := st; emitted := [] |}.
Proof.
  intros Hp Hparse. unfold processLine. rewrite Hp, Hparse.
  now destruct (includes DONE line).
Qed.

Lemma processLines_forwards (cfg : Config) (lines : list jsstring) (st : bool)
    (line : jsstring) :
  In line lines ->
  startsWith DATA_PREFIX line = true ->
  JSON_parse (slice 6 line) = None ->
  In (line ++ [NEWLINE]) (written (processLines cfg st lines)).
Proof.
  intros Hin Hp Hparse. revert st.
  induction lines as [|l rest IH]; intros st; [contradiction|].
  cbn [processLines written]. apply in_or_app. destruct Hin as [->|Hin].
  - left. rewrite rejected_payload by assumption. now left.
  - right. now apply IH.
Qed.

(** On a stream of ASCII bytes, where text and bytes are the same: every
    complete line of the stream that has the prefix and a payload the
    parser rejects is among the writes, followed by its newline. *)
Lemma unparseable_line_in_stream (cfg : Config) (chunks : list (list Z))
    (line : jsstring) :
  Forall ascii chunks ->
  In line (removelast (split NEWLINE (List.concat chunks))) ->
  startsWith DATA_PREFIX line = true ->
  JSON_parse (slice 6 line) = None ->
  In (line ++ [NEWLINE]) (written (snd (feedChunks cfg initial chunks))).
Proof.
  intros Hascii Hin Hp Hparse. unfold feedChunks.
  rewrite map_chunk_toString_ascii by assumption.
  rewrite feedTexts_concat by apply held_initial. cbv zeta. cbn [snd].
  now apply processLines_forwards.
Qed.

(** The [catch] on decoded text.  A line of text that begins with
    [data: ] and whose payload [JSON.parse] rejects is written as that
    text followed by a newline, [reasoningStarted] is left as it was,
    and the lines after it are processed as if it had not been there. *)
Theorem unparseable_line_forwarded (cfg : Config) (st : bool) (line : jsstring)
    (rest : list jsstring) :
  startsWith DATA_PREFIX line = true ->
  JSON_parse (slice 6 line) = None ->
  processLine cfg st line =
    {| written := [line ++ [NEWLINE]]; started := st; emitted := [] |} /\
  written (processLines cfg st (line :: rest)) =
    (line ++ [NEWLINE]) :: written (processLines cfg st rest) /\
  started (processLines cfg st (line :: rest)) = started (processLines cfg st rest).
Proof.
  intros Hp Hparse.
  pose proof (rejected_payload cfg st line Hp Hparse) as Hline.
  split; [exact Hline|]. cbn [processLines]. rewrite Hline. now cbn.
Qed.

(** C9.  For a parsed event whose [choices] is an array, the handler
    either writes the frame of a document whose [choices] differs from
    the parsed one in its first element at most, every later choice
    being the parsed value itself (with any [reasoning_content] it
    carries), or, when a conversion to text threw with the reasoning
    display on, writes back the line as it came. *)
Theorem later_choices_untouched (cfg : Config) (st : bool) (line : jsstring)
    (data c0 : json) (others : list json) :
  startsWith DATA_PREFIX line = true ->
  includes DONE line = false ->
  JSON_parse (slice 6 line) = Some data ->
  getProp (lit "choices") data = Some (JArr (c0 :: others)) ->
  (exists out c0',
      written (processLine cfg st line) = [frame out] /\
      getProp (lit "choices") out = Some (JArr (c0' :: others))) \/
  (SHOW_REASONING cfg = true /\
   fst (transformEvent cfg st data) = Throw /\
   written (processLine cfg st line) = [line ++ [NEWLINE]]).
Proof.
  intros Hp Hd Hparse Hc. unfold processLine. rewrite Hp, Hd, Hparse.
  destruct (transformEvent cfg st data) as [[[out trace]|] st'] eqn:Ht.
  - left. destruct (transformEvent_result _ _ _ _ _ _ Ht) as [->|[delta' ->]].
    + exists data, c0. now split.
    + destruct (choices_withFirstDelta data delta' c0 others Hc) as [c0' Hc'].
      exists (withFirstDelta delta' data), c0'. now split.
  - right. destruct (SHOW_REASONING cfg) eqn:Hshow.
    + now repeat split.
    + apply transformEvent_off in Ht; [|assumption]. subst data. discriminate.
Qed.

(** ** The [reasoningStarted] flag and the delimiters *)

Lemma track_app (o : bool) (t1 t2 : list delimiter) :
  track o (t1 ++ t2) =
  match track o t1 with
  | Some o' => track o' t2
  | None => None
  end.
Proof.
  revert o; induction t1 as [|d t1 IH]; intros o; [reflexivity|].
  destruct d, o; cbn; auto.
Qed.

Lemma track_count (o o' : bool) (trace : list delimiter) :
  track o trace = Some o' ->
  opens trace + Z.b2z o = closes trace + Z.b2z o'.
Proof.
  unfold opens, closes. revert o; induction trace as [|d trace IH]; intros o H.
  - injection H as ->. reflexivity.
  - destruct d, o; cbn [track] in H; try discriminate;
      apply IH in H; cbn [filter List.length Z.b2z] in *; lia.
Qed.

Lemma textual_converts (v : option json) :
  textual v = true -> exists s, toText_opt v = Normal s.
Proof.
  destruct v as [[]|]; cbn; try discriminate; eauto.
Qed.

(** [combinedContent] holds the delimiters in the order the flag allows,
    and it is empty only when it holds none. *)
Lemma combineContent_track (st st' : bool) (reasoning content : option json)
    (combined : json) (trace : list delimiter) :
  combineContent st reasoning content = (Normal (combined, trace), st') ->
  track st trace = Some st' /\ (truthy combined = false -> trace = [] /\ st' = st).
Proof.
  unfold combineContent.
  destruct (truthy_opt reasoning && negb st) eqn:Hfirst.
  - apply andb_true_iff in Hfirst as [_ Hst]. destruct st; [discriminate|].
    destruct (toText_opt reasoning) as [r|]; [|discriminate].
    destruct (truthy_opt content); cbn [andb].
    + destruct (toText_opt content) as [c|]; cbn; [|discriminate].
      intros H; injection H as <- <- <-. split; [reflexivity|discriminate].
    + intros H; injection H as <- <- <-. split; [reflexivity|discriminate].
  - assert (Hraw : forall v,
      (if truthy_opt content && st
       then match (c <- toText_opt content ;; l <- toText v ;;
                   Normal (l ++ THINK_CLOSE ++ c)) with
            | Normal s => (Normal (JStr s, [] ++ [CloseThink]), false)
            | Throw => (Throw, st)
            end
       else if truthy_opt content
            then match (l <- toText v ;; c <- toText_opt content ;;
                        Normal (l ++ c)) with
                 | Normal s => (Normal (JStr s, []), st)
                 | Throw => (Throw, st)
                 end
            else (Normal (v, []), st)) = (Normal (combined, trace), st') ->
      track st trace = Some st' /\ (truthy combined = false -> trace = [] /\ st' = st)).
    { intros v. destruct (truthy_opt content), st; cbn [andb].
      - destruct (toText_opt content) as [c|]; cbn; [|discriminate].
        destruct (toText v) as [l|]; cbn; [|discriminate].
        intros H; injection H as <- <- <-. split; [reflexivity|].
        destruct l; discriminate.
      - destruct (toText v) as [l|]; cbn; [|discriminate].
        destruct (toText_opt content) as [c|]; cbn; [|discriminate].
        intros H; injection H as <- <- <-. now split.
      - intros H; injection H as <- <- <-. now split.
      - intros H; injection H as <- <- <-. now split. }
    destruct reasoning as [r|]; [destruct (truthy r)|]; apply Hraw.
Qed.

(** A conversion that throws once the flag was set can only be that of
    the content fragment. *)
Lemma combineContent_throw (st st' : bool) (reasoning content : option json) :
  combineContent st reasoning content = (Throw, st') ->
  toText_opt content <> Throw ->
  st' = st.
Proof.
  unfold combineContent. intros H Hc.
  destruct (toText_opt content) as [c|] eqn:Ec; [clear Hc|contradiction].
  destruct (truthy_opt reasoning && negb st).
  - destruct (toText_opt reasoning) as [r|]; [|now injection H].
    destruct (truthy_opt content); cbn in H; discriminate.
  - destruct reasoning as [r|]; [destruct (truthy r)|];
      destruct (truthy_opt content), st; cbn [andb] in H;
      repeat match type of H with
      | context [toText ?v] => destruct (toText v); cbn in H
      end; try discriminate; now injection H.
Qed.

Lemma transformEvent_track (cfg : Config) (st st' : bool) (data out : json)
    (trace : list delimiter) :
  transformEvent cfg st data = (Normal (out, trace), st') ->
  track st trace = Some st'.
Proof.
  unfold transformEvent. intros H.
  destruct (firstDelta data) as [[delta|]|]; [| |discriminate];
    [|now injection H as _ <- <-].
  destruct (truthy delta); [|now injection H as _ <- <-].
  destruct (SHOW_REASONING cfg); [|now injection H as _ <- <-].
  destruct (combineContent st _ _) as [[[combined tr]|] started'] eqn:Hc;
    [|discriminate].
  apply combineContent_track in Hc as [Htrack Hempty].
  destruct (truthy combined).
  - now injection H as _ <- <-.
  - injection H as _ <- <-. now destruct Hempty as [_ ->].
Qed.

Lemma transformEvent_throw (cfg : Config) (st st' : bool) (data : json) :
  transformEvent cfg st data = (Throw, st') ->
  (forall delta, firstDelta data = Normal (Some delta) ->
                 toText_opt (getProp (lit "content") delta) <> Throw) ->
  st' = st.
Proof.
  unfold transformEvent. intros H Hconv.
  destruct (firstDelta data) as [[delta|]|]; [|discriminate|now injection H].
  specialize (Hconv delta eq_refl).
  destruct (truthy delta); [|discriminate].
  destruct (SHOW_REASONING cfg); [|discriminate].
  destruct (combineContent st _ _) as [[[combined tr]|] started'] eqn:Hc.
  - destruct (truthy combined); discriminate.
  - injection H as <-. eapply combineContent_throw; eassumption.
Qed.

Lemma processLine_track (cfg : Config) (st : bool) (line : jsstring) :
  contentConverts line = true ->
  track st (emitted (processLine cfg st line)) = Some (started (processLine cfg st line)).
Proof.
  unfold contentConverts, processLine. intros Hconv.
  destruct (startsWith DATA_PREFIX line); [|reflexivity].
  destruct (includes DONE line); [reflexivity|].
  destruct (JSON_parse (slice 6 line)) as [data|]; [|reflexivity].
  destruct (transformEvent cfg st data) as [[[out trace]|] st'] eqn:Ht; cbn.
  - eapply transformEvent_track; eassumption.
  - f_equal. symmetry. eapply transformEvent_throw; [eassumption|].
    intros delta Hd. rewrite Hd in Hconv.
    destruct (toText_opt (getProp (lit "content") delta)); discriminate.
Qed.

Lemma processLines_track (cfg : Config) (lines : list jsstring) (st : bool) :
  forallb contentConverts lines = true ->
  track st (emitted (processLines cfg st lines)) =
  Some (started (processLines cfg st lines)).
Proof.
  revert st; induction lines as [|line rest IH]; intros st Hconv; [reflexivity|].
  cbn [forallb] in Hconv. apply andb_true_iff in Hconv as [Hline Hrest].
  cbn [processLines emitted started]. rewrite track_app, processLine_track by assumption.
  now apply IH.
Qed.

Lemma forallb_firstn {A} (f : A -> bool) (n : nat) (l : list A) :
  forallb f l = true -> forallb f (firstn n l) = true.
Proof.
  revert l; induction n as [|n IH]; intros [|x l]; cbn; try reflexivity.
  intros H. apply andb_true_iff in H as [-> Hl]. now apply IH.
Qed.

(** ** Reasoning display: what the outbound deltas carry *)

Lemma truthy_text (s : jsstring) : s <> [] -> truthy (JStr s) = true.
Proof. destruct s; [contradiction | reflexivity]. Qed.

(** Text fragments never make the conversion throw, and a non-empty
    one makes [combinedContent] non-empty. *)
Lemma combineContent_textual (st : bool) (reasoning content : option json) :
  textual reasoning = true -> textual content = true ->
  exists combined trace st',
    combineContent st reasoning content = (Normal (combined, trace), st') /\
    (truthy_opt reasoning || truthy_opt content = true -> truthy combined = true).
Proof.
  intros Hr Hc.
  destruct reasoning as [[| | |[|x r]| |]|]; try discriminate;
    destruct content as [[| | |[|y c]| |]|]; try discriminate;
    destruct st; cbn; do 3 eexists; (split; [reflexivity|]);
    try discriminate; try reflexivity.
  all: intros _; destruct r; reflexivity.
Qed.

(** For text fragments [combinedContent] is the two texts with exactly
    the recorded delimiters: one before the reasoning, one between the
    reasoning and the content. *)
Lemma combineContent_text (st : bool) (reasoning content : option json) :
  textual reasoning = true -> textual content = true ->
  let trace := delimiters st (fragment reasoning) (fragment content) in
  exists st',
    combineContent st reasoning content =
    (Normal (JStr (render trace (fragment reasoning) (fragment content)), trace), st').
Proof.
  intros Hr Hc.
  destruct reasoning as [[| | |[|x r]| |]|]; try discriminate;
    destruct content as [[| | |[|y c]| |]|]; try discriminate;
    destruct st; cbn; eexists; try reflexivity.
  all: now rewrite ?app_nil_r.
Qed.

(** A delta that carries only a reasoning fragment, then one that
    carries only a content fragment. *)
Lemma reasoning_then_content (cfg : Config) (data1 data2 : json) (R C : jsstring) :
  SHOW_REASONING cfg = true ->
  R <> [] -> C <> [] ->
  firstDelta data1 = Normal (Some (JObj [ (lit "reasoning_content", JStr R) ])) ->
  firstDelta data2 = Normal (Some (JObj [ (lit "content", JStr C) ])) ->
  transformEvent cfg false data1 =
    (Normal (withFirstDelta (JObj [ (lit "content", JStr (THINK_OPEN ++ R)) ]) data1,
             [OpenThink]), true) /\
  transformEvent cfg true data2 =
    (Normal (withFirstDelta (JObj [ (lit "content", JStr (THINK_CLOSE ++ C)) ]) data2,
             [CloseThink]), false).
Proof.
  intros Hshow HR HC H1 H2. unfold transformEvent. rewrite H1, H2, Hshow.
  destruct R as [|x R]; [contradiction|]. destruct C as [|y C]; [contradiction|].
  split; reflexivity.
Qed.

(** The merge at the start of a stream, and the key where text is
    carried.  With the reasoning display on:
    (1) from a clear flag, two lines free of the sentinel text whose payloads parse to an
    event with the only fragment [reasoning_content: R] and then to one
    with the only fragment [content: C], [R] and [C] not empty, are
    answered by two frames whose first deltas are exactly
    [{content: "<think>\nR"}] and [{content: "</think>\n\nC"}], so
    without a [reasoning_content] key;
    (2) for every line free of the sentinel text whose payload parses to
    an event whose first delta has text fragments, one of them not
    empty, the frame written has a first delta without a
    [reasoning_content] key. *)
Theorem reasoning_merged_into_content (cfg : Config) :
  SHOW_REASONING cfg = true ->
  (forall (R C line1 line2 : jsstring) (data1 data2 : json),
      R <> [] -> C <> [] ->
      startsWith DATA_PREFIX line1 = true -> includes DONE line1 = false ->
      startsWith DATA_PREFIX line2 = true -> includes DONE line2 = false ->
      JSON_parse (slice 6 line1) = Some data1 ->
      JSON_parse (slice 6 line2) = Some data2 ->
      firstDelta data1 = Normal (Some (JObj [ (lit "reasoning_content", JStr R) ])) ->
      firstDelta data2 = Normal (Some (JObj [ (lit "content", JStr C) ])) ->
      exists out1 out2,
        written (processLines cfg false [line1; line2]) = [frame out1; frame out2] /\
        firstDelta out1 = Normal (Some (JObj [ (lit "content", JStr (THINK_OPEN ++ R)) ])) /\
        firstDelta out2 = Normal (Some (JObj [ (lit "content", JStr (THINK_CLOSE ++ C)) ])))
  /\
  (forall (st : bool) (line : jsstring) (data delta : json),
      startsWith DATA_PREFIX line = true -> includes DONE line = false ->
      JSON_parse (slice 6 line) = Some data ->
      firstDelta data = Normal (Some delta) ->
      textual (getProp (lit "reasoning_content") delta) = true ->
      textual (getProp (lit "content") delta) = true ->
      truthy_opt (getProp (lit "reasoning_content") delta)
        || truthy_opt (getProp (lit "content") delta) = true ->
      exists out delta',
        written (processLine cfg st line) = [frame out] /\
        firstDelta out = Normal (Some delta') /\
        getProp (lit "reasoning_content") delta' = None).
Proof.
  intros Hshow. split.
  - intros R C line1 line2 data1 data2 HR HC Hp1 Hd1 Hp2 Hd2 Hj1 Hj2 H1 H2.
    destruct (reasoning_then_content cfg data1 data2 R C Hshow HR HC H1 H2) as [T1 T2].
    do 2 eexists. split; [|split].
    + cbn [processLines]. unfold processLine.
      rewrite Hp1, Hd1, Hj1, T1. cbn [started written].
      rewrite Hp2, Hd2, Hj2, T2. reflexivity.
    + eapply firstDelta_withFirstDelta; eassumption.
    + eapply firstDelta_withFirstDelta; eassumption.
  - intros st line data delta Hp Hd Hj Hdelta Hr Hc Hsome.
    assert (Hobj : exists fields, delta = JObj fields).
    { destruct delta; try (cbn in Hsome; discriminate). eauto. }
    destruct Hobj as [fields ->].
    destruct (combineContent_textual st _ _ Hr Hc)
      as (combined & trace & st' & Hcomb & Htruthy).
    specialize (Htruthy Hsome).
    do 2 eexists. split; [|split].
    + unfold processLine. rewrite Hp, Hd, Hj. unfold transformEvent.
      rewrite Hdelta. cbn [truthy]. rewrite Hshow, Hcomb, Htruthy. reflexivity.
    + eapply firstDelta_withFirstDelta; eassumption.
    + apply getProp_deleteProp_obj.
Qed.

(** Without text in either fragment the event leaves as it came: line
    196 finds [combinedContent] empty, so neither the assignment of line
    197 nor the [delete] of line 198 runs. *)
Lemma falsy_fragments_unchanged (cfg : Config) (st : bool) (line : jsstring)
    (data : json) (fields : list (jsstring * json)) :
  SHOW_REASONING cfg = true ->
  startsWith DATA_PREFIX line = true ->
  includes DONE line = false ->
  JSON_parse (slice 6 line) = Some data ->
  firstDelta data = Normal (Some (JObj fields)) ->
  truthy_opt (assoc (lit "reasoning_content") fields) = false ->
  truthy_opt (assoc (lit "content") fields) = false ->
  processLine cfg st line =
  {| written := [frame data]; started := st; emitted := [] |}.
Proof.
  intros Hshow Hp Hd Hj Hdelta Hr Hc.
  unfold processLine. rewrite Hp, Hd, Hj. unfold transformEvent.
  rewrite Hdelta, Hshow. cbn [truthy getProp]. unfold combineContent.
  rewrite Hr, Hc. cbn [andb].
  destruct (assoc (lit "reasoning_content") fields) as [r|]; cbn [truthy_opt] in Hr;
    [rewrite Hr|]; reflexivity.
Qed.

(** ** Request adapter *)

Lemma unset_table_value (model : jsstring) :
  MODEL_MAPPING_get model = Undefined \/ unset (MODEL_MAPPING_get model) = false.
Proof.
  unfold MODEL_MAPPING_get, MODEL_MAPPING, lookup.
  repeat match goal with
         | |- context [if ?c then _ else _] => destruct c; [right; reflexivity|]
         end.
  now left.
Qed.

(** A name found in the table resolves to the table's value, and a name
    of [Object.prototype] to that member; neither reaches the probe. *)
Lemma resolveModel_found (h : handler) (probe : option Z) (model : jsstring) :
  MODEL_MAPPING_get model <> Undefined ->
  resolveModel h probe model = MODEL_MAPPING_get model.
Proof.
  intros H. unfold resolveModel.
  destruct (unset_table_value model) as [E|E]; [contradiction|]. now rewrite E.
Qed.

(** C4, as the two copies of the handler have it.  For a model name for
    which [MODEL_MAPPING[model]] is [undefined] and a probe that did not
    make the handler adopt the name, the upstream model is chosen by
    substring of the lower-cased name: the 405b model for ["gpt-4"],
    ["claude-opus"] or ["405b"]; otherwise the 70b model for ["claude"],
    ["gemini"] or ["70b"]; otherwise the 70b model again in the first
    copy and the 8b model in the second. *)
Theorem fallback_by_substring (h : handler) (probe : option Z) (model : jsstring) :
  MODEL_MAPPING_get model = Undefined ->
  adopted probe = false ->
  let lower := toLowerCase model in
  let large := includes (lit "gpt-4") lower || includes (lit "claude-opus") lower
               || includes (lit "405b") lower in
  let mid := includes (lit "claude") lower || includes (lit "gemini") lower
             || includes (lit "70b") lower in
  resolveModel h probe model =
    ModelId (if large then LARGE_MODEL
             else if mid then MID_MODEL
             else match h with First => MID_MODEL | Second => SMALL_MODEL end).
Proof.
  intros Hget Hprobe. unfold resolveModel. rewrite Hget. cbn [unset].
  replace (match probe with
           | Some status =>
               if (200 <=? status) && (status <? 300) then ModelId model else Undefined
           | None => Undefined
           end) with Undefined.
  - reflexivity.
  - destruct probe as [status|]; [|reflexivity].
    cbn [adopted] in Hprobe. now rewrite Hprobe.
Qed.

(** Where the first copy tests [!== undefined], a value that was
    supplied goes upstream as it is. *)
Lemma supplied_values_kept (cfg : Config) (nim : nimModel) (messages : list json)
    (body : Body.t) :
  let request := nimRequest First cfg nim messages body in
  (forall v, Body.temperature body = Some v -> NimRequest.temperature request = v) /\
  (forall v, Body.top_p body = Some v -> NimRequest.top_p request = Some v) /\
  (forall v, Body.presence_penalty body = Some v ->
             NimRequest.presence_penalty request = Some v) /\
  (forall v, Body.frequency_penalty body = Some v ->
             NimRequest.frequency_penalty request = Some v).
Proof.
  cbn. repeat split; intros v ->; reflexivity.
Qed.

(** C3 at the failing input.  A request with [max_tokens: 0] goes
    upstream with [max_tokens: 4096] in the first copy of the handler
    (line 135 tests the value with [||]) and with 9024 in the second; the
    second copy also replaces [temperature: 0] by 0.6 and sends none of
    [top_p], [presence_penalty], [frequency_penalty]. *)
Theorem zero_max_tokens_replaced (cfg : Config) (nim : nimModel) (messages : list json)
    (model : jsstring) (inbound : list json) (stream : option json) :
  let zero := Some (JNum (lit "0")) in
  let body := {| Body.model := model; Body.messages := inbound;
                 Body.temperature := zero; Body.max_tokens := zero;
                 Body.stream := stream; Body.top_p := zero;
                 Body.presence_penalty := zero; Body.frequency_penalty := zero |} in
  NimRequest.max_tokens (nimRequest First cfg nim messages body) = JNum (lit "4096") /\
  NimRequest.temperature (nimRequest First cfg nim messages body) = JNum (lit "0") /\
  NimRequest.max_tokens (nimRequest Second cfg nim messages body) = JNum (lit "9024") /\
  NimRequest.temperature (nimRequest Second cfg nim messages body) = JNum (lit "0.6") /\
  NimRequest.top_p (nimRequest Second cfg nim messages body) = None.
Proof. cbv zeta. repeat split. Qed.

Lemma isSystem_systemRole (m : json) :
  m <> JNull -> isSystem m = Normal (systemRole m).
Proof. destruct m; [contradiction|..]; reflexivity. Qed.

Lemma isMessage_not_null (m : json) : isMessage m = true -> m <> JNull.
Proof. intros H ->. discriminate. Qed.

Lemma someSystem_messages (messages : list json) :
  forallb isMessage messages = true ->
  someSystem messages = Normal (existsb systemRole messages).
Proof.
  induction messages as [|m rest IH]; [reflexivity|].
  cbn [forallb existsb someSystem]. intros H.
  apply andb_true_iff in H as [Hm Hrest].
  rewrite isSystem_systemRole by now apply isMessage_not_null.
  cbn [bind]. destruct (systemRole m); [reflexivity|]. now apply IH.
Qed.

Lemma system_content (m : json) :
  isMessage m = true -> systemRole m = true ->
  exists fields c, m = JObj fields /\ assoc (lit "content") fields = Some (JStr c).
Proof.
  intros H Hs. destruct m as [| | | | |fields]; try discriminate.
  unfold isMessage in H. rewrite Hs in H. cbn [negb orb getProp] in H.
  destruct (assoc (lit "content") fields) as [[| | |c| |]|] eqn:Hc; try discriminate.
  exists fields, c. split; [reflexivity | exact Hc].
Qed.

Lemma enhance_message (m : json) :
  isMessage m = true -> enhance m = Normal (enhanced m).
Proof.
  intros H. unfold enhance, enhanced.
  rewrite isSystem_systemRole by now apply isMessage_not_null.
  cbn [bind]. destruct (systemRole m) eqn:Hs; [|reflexivity].
  destruct (system_content m H Hs) as (fields & c & -> & Hc).
  cbn [getProp]. now rewrite Hc.
Qed.

Lemma mapM_enhance (messages : list json) :
  forallb isMessage messages = true ->
  mapM enhance messages = Normal (map enhanced messages).
Proof.
  induction messages as [|m rest IH]; [reflexivity|].
  cbn [forallb mapM map]. intros H. apply andb_true_iff in H as [Hm Hrest].
  now rewrite enhance_message, IH.
Qed.

Lemma getProp_setProp_other (k k' : jsstring) (v : json) (fields : list (jsstring * json)) :
  k' <> k ->
  getProp k' (setProp k v (JObj fields)) = getProp k' (JObj fields).
Proof.
  intros Hk. cbn [setProp getProp].
  induction fields as [|[k0 v0] rest IH]; cbn [setField assoc].
  - apply str_eqb_neq in Hk. now rewrite Hk.
  - destruct (str_eqb k k0) eqn:E; cbn [assoc]; [|now rewrite IH].
    apply str_eqb_eq in E; subst k0. apply str_eqb_neq in Hk. now rewrite Hk.
Qed.

(** C6.  With the detailed-response injection on and an inbound sequence
    of messages (none of them [null], the system messages with a text
    content), the first handler builds its upstream request, whose
    messages are:
    - when no message has the role [system]: the fixed system message
      followed by the inbound messages, one more than came in;
    - when some message has the role [system]: as many messages as came
      in, in the same order, every system message with its content
      followed by the fixed suffix and its other fields as they were,
      every other message as it was. *)
Theorem prompt_augmentation (cfg : Config) (probe : option Z) (body : Body.t) :
  FORCE_DETAILED_RESPONSES cfg = true ->
  forallb isMessage (Body.messages body) = true ->
  exists request,
    upstreamRequest First cfg probe body = Normal request /\
    let inbound := Body.messages body in
    let sent := NimRequest.messages request in
    (existsb systemRole inbound = false ->
       sent = SYSTEM_MESSAGE :: inbound /\
       List.length sent = S (List.length inbound) /\
       getProp (lit "role") SYSTEM_MESSAGE = Some (JStr (lit "system")) /\
       getProp (lit "content") SYSTEM_MESSAGE = Some (JStr DETAILED_SYSTEM_PROMPT)) /\
    (existsb systemRole inbound = true ->
       List.length sent = List.length inbound /\
       Forall2
         (fun m m' =>
            if systemRole m then
              exists c,
                getProp (lit "content") m = Some (JStr c) /\
                getProp (lit "content") m' = Some (JStr (c ++ ELABORATION_SUFFIX)) /\
                forall k, k <> lit "content" -> getProp k m' = getProp k m
            else m' = m)
         inbound sent).
Proof.
  intros Hforce Hmsgs. unfold upstreamRequest, processedMessages.
  rewrite Hforce, someSystem_messages by assumption. cbn [bind].
  destruct (existsb systemRole (Body.messages body)) eqn:Hsys; cbn [negb].
  - rewrite mapM_enhance by assumption. cbn [bind].
    eexists. split; [reflexivity|]. cbn [NimRequest.messages nimRequest].
    split; [discriminate|]. intros _. split; [apply length_map|].
    clear Hsys. induction (Body.messages body) as [|m rest IH]; [constructor|].
    cbn [forallb] in Hmsgs. apply andb_true_iff in Hmsgs as [Hm Hrest].
    cbn [map]. constructor; [|now apply IH].
    unfold enhanced. destruct (systemRole m) eqn:Hs; [|reflexivity].
    destruct (system_content m Hm Hs) as (fields & c & -> & Hc).
    exists c. cbn [getProp]. rewrite Hc. split; [reflexivity|]. split.
    + cbn [setProp getProp]. apply assoc_setField.
    + intros k Hk. now apply getProp_setProp_other.
  - eexists. split; [reflexivity|]. cbn [NimRequest.messages nimRequest].
    split; [|discriminate]. intros _. repeat split.
Qed.

(** ** Response adapter, non-streaming path *)

Lemma openaiResponse_model (cfg : Config) (now now' : Z) (model : jsstring)
    (data : json) (response : OpenAIResponse.t) :
  openaiResponse cfg now now' model data = Normal response ->
  OpenAIResponse.model response = model.
Proof.
  unfold openaiResponse. intros H.
  destruct data; try discriminate;
    destruct (getProp (lit "choices") _) as [[| | | |items|]|]; try discriminate;
    destruct (mapM (transformChoice cfg) items); try discriminate;
    cbn [bind] in H; now injection H as <-.
Qed.

Lemma orElse_textual (v : option json) :
  textual v = true -> exists s, orElse v (JStr []) = JStr s.
Proof.
  destruct v as [[| | |s| |]|]; try discriminate; intros _; cbn; eauto.
  destruct (negb (str_eqb s [])); eauto.
Qed.

Lemma transformChoice_answers (cfg : Config) (choice : json) :
  isChoice choice = true -> exists c, transformChoice cfg choice = Normal c.
Proof.
  unfold isChoice, transformChoice. intros H.
  destruct choice; try discriminate;
    (destruct (getProp (lit "message") _) as [message|]; [|discriminate]);
    (destruct message; try discriminate);
    apply andb_true_iff in H as [Hc Hr];
    unfold optProp;
    destruct (orElse_textual _ Hc) as [full ->];
    destruct (textual_converts _ Hr) as [thought ->];
    destruct (SHOW_REASONING cfg && truthy_opt _); cbn; eauto.
Qed.

Lemma mapM_answers (cfg : Config) (items : list json) :
  forallb isChoice items = true ->
  exists choices, mapM (transformChoice cfg) items = Normal choices.
Proof.
  induction items as [|choice rest IH]; cbn [forallb mapM]; [eauto|].
  intros H. apply andb_true_iff in H as [Hc Hrest].
  destruct (transformChoice_answers cfg choice Hc) as [c ->].
  destruct (IH Hrest) as [cs ->]. cbn. eauto.
Qed.

(** A request that does not stream, with messages of the request type,
    answered by the upstream with choices of the response type, gets a
    completion. *)
Lemma chatCompletion_answers (cfg : Config) (probe : option Z)
    (post : NimRequest.t -> option json) (now now' : Z) (body : Body.t) :
  truthy_opt (Body.stream body) = false ->
  forallb isMessage (Body.messages body) = true ->
  (forall request, exists fields items,
      post request = Some (JObj fields) /\
      assoc (lit "choices") fields = Some (JArr items) /\
      forallb isChoice items = true) ->
  exists response, chatCompletion cfg probe post now now' body = Normal (Some response).
Proof.
  intros Hstream Hmsgs Hpost. unfold chatCompletion, upstreamRequest.
  assert (Hm : exists messages,
             processedMessages cfg (Body.messages body) = Normal messages).
  { unfold processedMessages. destruct (FORCE_DETAILED_RESPONSES cfg); [|eauto].
    rewrite someSystem_messages by assumption. cbn [bind].
    destruct (existsb systemRole (Body.messages body)); cbn [negb]; [|eauto].
    rewrite mapM_enhance by assumption. eauto. }
  destruct Hm as [messages ->]. cbn [bind].
  destruct (Hpost (nimRequest First cfg
                     (resolveModel First probe (Body.model body)) messages body))
    as (fields & items & -> & Hchoices & Hitems).
  rewrite Hstream. unfold openaiResponse. cbn [getProp]. rewrite Hchoices.
  destruct (mapM_answers cfg items Hitems) as [choices ->]. cbn. eauto.
Qed.

(** C8.  Whenever the first handler answers a request with a completion,
    the [model] of the answer is the name the caller sent; so it is not
    the identifier the name was resolved to when the two differ. *)
Theorem model_echoed (cfg : Config) (probe : option Z)
    (post : NimRequest.t -> option json) (now now' : Z) (body : Body.t)
    (response : OpenAIResponse.t) :
  chatCompletion cfg probe post now now' body = Normal (Some response) ->
  OpenAIResponse.model response = Body.model body /\
  (forall id, resolveModel First probe (Body.model body) = ModelId id ->
              id <> Body.model body ->
              OpenAIResponse.model response <> id).
Proof.
  unfold chatCompletion. intros H.
  destruct (upstreamRequest First cfg probe body) as [request|]; [|discriminate].
  cbn [bind] in H. destruct (post request) as [data|]; [|discriminate].
  destruct (truthy_opt (Body.stream body)); [discriminate|].
  destruct (openaiResponse cfg now now' (Body.model body) data) as [r|] eqn:Hr;
    [|discriminate].
  cbn [bind] in H. injection H as <-.
  apply openaiResponse_model in Hr. split; [exact Hr|].
  intros id _ Hne. rewrite Hr. congruence.
Qed.

(* ================================================================== *)
(** * Further properties of the handler *)
(* ================================================================== *)

(** ** The buffer *)

Lemma split_without_separator (sep : Z) (s : jsstring) :
  ~ In sep s -> split sep s = [s].
Proof.
  induction s as [|c s IH]; [reflexivity|]. intros Hnot. cbn [split].
  destruct (Z.eqb_spec c sep) as [->|_]; [exfalso; apply Hnot; now left|].
  rewrite IH; [reflexivity|]. intros Hin. apply Hnot. now right.
Qed.

Lemma split_terminated (sep : Z) (s : jsstring) :
  exists front, front <> [] /\ split sep (s ++ [sep]) = front ++ [[]].
Proof.
  induction s as [|c s IH].
  - exists [[]]. split; [discriminate|]. cbn. now rewrite Z.eqb_refl.
  - destruct IH as (front & Hne & IH). cbn [app split]. rewrite IH.
    destruct (c =? sep).
    + exists ([] :: front). split; [discriminate | reflexivity].
    + destruct front as [|f fs]; [contradiction|].
      exists ((c :: f) :: fs). split; [discriminate | reflexivity].
Qed.

Lemma join_split (sep : Z) (s : jsstring) :
  List.concat (map (fun l => l ++ [sep]) (removelast (split sep s)))
    ++ last (split sep s) [] = s.
Proof.
  induction s as [|c s IH]; [reflexivity|].
  pose proof (split_nonempty sep s) as Hne. cbn [split].
  destruct (Z.eqb_spec c sep) as [->|Hc].
  - rewrite removelast_cons, last_cons by assumption.
    cbn [map List.concat app]. now rewrite IH.
  - destruct (split sep s) as [|p [|p2 ps]] eqn:Hs; [contradiction| |].
    + cbn in *. now rewrite IH.
    + change (removelast ((c :: p) :: p2 :: ps)) with ((c :: p) :: removelast (p2 :: ps)).
      change (removelast (p :: p2 :: ps)) with (p :: removelast (p2 :: ps)) in IH.
      change (last ((c :: p) :: p2 :: ps) []) with (last (p :: p2 :: ps) []).
      cbn [map List.concat app] in *. now rewrite IH.
Qed.

Lemma split_pieces_clean (sep : Z) (s : jsstring) :
  Forall (fun l => ~ In sep l) (split sep s).
Proof.
  induction s as [|c s IH]; [repeat constructor; intros []|].
  cbn [split]. destruct (Z.eqb_spec c sep) as [->|Hc].
  - constructor; [intros []|exact IH].
  - destruct (split sep s) as [|p ps]; [repeat constructor; intros [E|[]]; congruence|].
    inversion IH as [|? ? Hp Hps]; subst. constructor; [|exact Hps].
    intros [E|Hin]; [congruence | contradiction].
Qed.

Lemma Forall_removelast_last {A} (P : A -> Prop) (l : list A) (d : A) :
  l <> [] -> Forall P l -> Forall P (removelast l) /\ P (last l d).
Proof.
  intros Hne H. rewrite (app_removelast_last d Hne) in H.
  apply Forall_app in H as [H1 H2]. split; [exact H1|]. now inversion H2.
Qed.

(** X1.  The stream is handled as its concatenation.  Whatever the
    deliveries, the lines given to [forEach] are the complete lines of
    the whole text, each once and in order; what stays in [buffer] is
    the text after the last newline; the lines with their newlines and
    the buffer make up the text received, nothing lost and nothing
    twice; and no line and no buffer holds a newline. *)
Theorem stream_is_its_concatenation (cfg : Config) (texts : list jsstring) :
  let total := List.concat texts in
  let lines := removelast (split NEWLINE total) in
  let pending := last (split NEWLINE total) [] in
  feedTexts cfg initial texts =
    ({| buffer := pending; reasoningStarted := started (processLines cfg false lines) |},
     lines, processLines cfg false lines) /\
  List.concat (map (fun l => l ++ [NEWLINE]) lines) ++ pending = total /\
  Forall (fun l => ~ In NEWLINE l) lines /\
  ~ In NEWLINE pending.
Proof.
  cbv zeta. split; [|split].
  - now rewrite feedTexts_concat by apply held_initial.
  - apply join_split.
  - apply (Forall_removelast_last (fun l => ~ In NEWLINE l));
      [apply split_nonempty | apply split_pieces_clean].
Qed.

(** X2.  Deliveries can be cut anywhere in the middle of a stream too:
    from any state whose buffer holds no newline, two sequences of text
    deliveries with the same concatenation give the same final state,
    the same lines and the same writes. *)
Theorem rechunking_mid_stream (cfg : Config) (st : stream_state)
    (texts texts' : list jsstring) :
  ~ In NEWLINE (buffer st) ->
  List.concat texts = List.concat texts' ->
  feedTexts cfg st texts = feedTexts cfg st texts'.
Proof.
  intros Hbuf E.
  assert (Hheld : held st) by now apply split_without_separator.
  rewrite !feedTexts_concat by assumption. cbv zeta. now rewrite E.
Qed.

(** X3.  Chunks of ASCII bytes can be cut anywhere: two sequences of
    chunks with the same bytes, all below 0x80, give the same final
    state, the same lines and the same writes. *)
Theorem ascii_rechunking (cfg : Config) (chunks chunks' : list (list Z)) :
  Forall ascii chunks -> Forall ascii chunks' ->
  List.concat chunks = List.concat chunks' ->
  feedChunks cfg initial chunks = feedChunks cfg initial chunks'.
Proof.
  intros H H' E. unfold feedChunks.
  rewrite !map_chunk_toString_ascii by assumption.
  rewrite !feedTexts_concat by apply held_initial. cbv zeta. now rewrite E.
Qed.

(** X4.  Text after the last newline is never processed: a stream
    [body], newline, [tail] with no newline in [tail] gives the lines and
    the writes of [body] and its newline alone and leaves [tail] in the
    buffer, where it stays when the stream ends (the [end] callback of
    line 217 only closes the response); and a stream without any
    newline writes nothing. *)
Theorem unterminated_tail_held_back (cfg : Config) (texts : list jsstring)
    (body tail : jsstring) :
  ~ In NEWLINE tail ->
  List.concat texts = body ++ NEWLINE :: tail ->
  feedTexts cfg initial texts =
    (let '(st, lines, r) := feedTexts cfg initial [body ++ [NEWLINE]] in
     ({| buffer := tail; reasoningStarted := reasoningStarted st |}, lines, r)) /\
  feedTexts cfg initial [tail] =
    ({| buffer := tail; reasoningStarted := false |}, [],
     {| written := []; started := false; emitted := [] |}).
Proof.
  intros Htail E. split.
  - rewrite !feedTexts_concat by apply held_initial. cbv zeta.
    cbn [buffer initial app List.concat]. rewrite E, app_nil_r.
    change (body ++ NEWLINE :: tail) with (body ++ [NEWLINE] ++ tail).
    rewrite app_assoc.
    rewrite (removelast_split_app NEWLINE (body ++ [NEWLINE]) tail).
    rewrite (last_split_app NEWLINE (body ++ [NEWLINE]) tail).
    destruct (split_terminated NEWLINE body) as (front & Hne & ->).
    rewrite last_last, removelast_last. cbn [app].
    rewrite (split_without_separator NEWLINE tail Htail).
    cbn [removelast last]. now rewrite app_nil_r.
  - rewrite feedTexts_concat by apply held_initial. cbv zeta.
    cbn [buffer initial app List.concat]. rewrite app_nil_r.
    now rewrite (split_without_separator NEWLINE tail Htail).
Qed.

(** ** Lines *)

(** X5.  Every line that begins with [data: ] is answered by exactly one
    write and every other line by none: the number of writes is the
    number of lines with the prefix, whatever they hold. *)
Theorem one_write_per_data_line (cfg : Config) (st : bool) (lines : list jsstring) :
  List.length (written (processLines cfg st lines)) =
  List.length (filter (startsWith DATA_PREFIX) lines).
Proof.
  revert st; induction lines as [|line rest IH]; intros st; [reflexivity|].
  cbn [processLines written filter]. rewrite length_app, IH.
  unfold processLine. destruct (startsWith DATA_PREFIX line); [|reflexivity].
  destruct (includes DONE line); [reflexivity|].
  destruct (JSON_parse (slice 6 line)) as [data|]; [|reflexivity].
  now destruct (transformEvent cfg st data) as [[[out trace]|] st'].
Qed.

Lemma transformEvent_off_state (cfg : Config) (st : bool) (data : json) :
  SHOW_REASONING cfg = false ->
  snd (transformEvent cfg st data) = st /\
  forall out trace, fst (transformEvent cfg st data) = Normal (out, trace) -> trace = [].
Proof.
  intros Hoff. unfold transformEvent. rewrite Hoff.
  destruct (firstDelta data) as [[delta|]|]; [destruct (truthy delta)| |];
    cbn [fst snd]; (split; [reflexivity|]); intros out trace H;
    try discriminate; now injection H.
Qed.

(** X6.  With the reasoning display off, as the file sets it, no line
    changes [reasoningStarted] and no delimiter is written, whatever the
    lines hold. *)
Theorem display_off_keeps_flag (cfg : Config) (st : bool) (lines : list jsstring) :
  SHOW_REASONING cfg = false ->
  started (processLines cfg st lines) = st /\
  emitted (processLines cfg st lines) = [].
Proof.
  intros Hoff. induction lines as [|line rest IH]; [now split|].
  cbn [processLines started emitted].
  assert (Hline : started (processLine cfg st line) = st /\
                  emitted (processLine cfg st line) = []).
  { unfold processLine. destruct (startsWith DATA_PREFIX line); [|now split].
    destruct (includes DONE line); [now split|].
    destruct (JSON_parse (slice 6 line)) as [data|]; [|now split].
    destruct (transformEvent_off_state cfg st data Hoff) as [Hst Htr].
    destruct (transformEvent cfg st data) as [[[out trace]|] st']; cbn in *.
    - split; [exact Hst | now apply (Htr out trace)].
    - now split. }
  destruct Hline as [-> ->]. exact IH.
Qed.

(** ** The rewrite of the first delta *)

Lemma assoc_filter_other (k k' : jsstring) (fields : list (jsstring * json)) :
  k <> k' ->
  assoc k (filter (fun kv => negb (str_eqb k' (fst kv))) fields) = assoc k fields.
Proof.
  intros Hk. induction fields as [|[k0 v0] rest IH]; [reflexivity|].
  cbn [filter fst assoc]. destruct (str_eqb k' k0) eqn:E; cbn [negb assoc].
  - apply str_eqb_eq in E; subst k0.
    apply str_eqb_neq in Hk. now rewrite Hk.
  - now rewrite IH.
Qed.

Lemma assoc_setField_other (k k' : jsstring) (v : json) (fields : list (jsstring * json)) :
  k' <> k -> assoc k' (setField k v fields) = assoc k' fields.
Proof. intros Hk. exact (getProp_setProp_other k k' v fields Hk). Qed.

Lemma setField_same (k : jsstring) (v : json) (fields : list (jsstring * json)) :
  assoc k fields = Some v -> setField k v fields = fields.
Proof.
  induction fields as [|[k0 v0] rest IH]; [discriminate|].
  cbn [assoc setField]. destruct (str_eqb k k0); intros H.
  - now injection H as ->.
  - now rewrite IH.
Qed.

Lemma filter_twice {A} (f : A -> bool) (l : list A) :
  filter f (filter f l) = filter f l.
Proof.
  induction l as [|x l IH]; [reflexivity|]. cbn [filter].
  destruct (f x) eqn:E; [|exact IH]. cbn [filter]. now rewrite E, IH.
Qed.

(** The value line 201-205 assigns to [content] with the display off. *)
Lemma offContent_fixed (content : option json) :
  let v := match content with
           | Some c => if truthy c then c else JStr []
           | None => JStr []
           end in
  (if truthy v then v else JStr []) = v.
Proof.
  destruct content as [c|]; cbn; [|reflexivity].
  destruct (truthy c) eqn:E; [now rewrite E | reflexivity].
Qed.

(** X7.  With the reasoning display off, as the file sets it: a line
    free of the sentinel text whose payload parses to an event with an
    object as first delta is answered by the frame of an event whose
    first delta has no [reasoning_content], has for [content] the
    fragment received when that is truthy and the empty string
    otherwise, and keeps every other key with its value. *)
Theorem display_off_rewrites_delta (cfg : Config) (st : bool) (line : jsstring)
    (data : json) (fields : list (jsstring * json)) :
  SHOW_REASONING cfg = false ->
  startsWith DATA_PREFIX line = true ->
  includes DONE line = false ->
  JSON_parse (slice 6 line) = Some data ->
  firstDelta data = Normal (Some (JObj fields)) ->
  exists out fields',
    written (processLine cfg st line) = [frame out] /\
    firstDelta out = Normal (Some (JObj fields')) /\
    assoc (lit "reasoning_content") fields' = None /\
    assoc (lit "content") fields' =
      Some (match assoc (lit "content") fields with
            | Some c => if truthy c then c else JStr []
            | None => JStr []
            end) /\
    forall k, k <> lit "content" -> k <> lit "reasoning_content" ->
              assoc k fields' = assoc k fields.
Proof.
  intros Hoff Hp Hd Hj Hdelta.
  do 2 eexists. split; [|split; [|split; [|split]]].
  - unfold processLine. rewrite Hp, Hd, Hj. unfold transformEvent.
    rewrite Hdelta, Hoff. cbn [truthy getProp setProp deleteProp]. reflexivity.
  - eapply firstDelta_withFirstDelta; eassumption.
  - apply assoc_deleted.
  - rewrite assoc_filter_other by (intros E; vm_compute in E; discriminate).
    apply assoc_setField.
  - intros k Hc Hr. rewrite assoc_filter_other by assumption.
    now apply assoc_setField_other.
Qed.

Lemma setIndex0_same (v o : json) :
  getIndex0 o = Some v ->
  (match o with JArr _ | JObj _ => True | _ => False end) ->
  setIndex0 v o = o.
Proof.
  destruct o as [| | | |items|ofields]; try contradiction; cbn; intros H _.
  - destruct items; [discriminate|]. now injection H as ->.
  - now rewrite setField_same.
Qed.

(** Assigning the first delta twice is assigning it once. *)
Lemma withFirstDelta_twice (data delta delta' : json) :
  firstDelta data = Normal (Some delta) ->
  withFirstDelta delta' (withFirstDelta delta' data) = withFirstDelta delta' data.
Proof.
  intros H. destruct (firstDelta_path _ _ H)
    as (fields & choices & cfields & -> & Hc & H0 & Hshape & Hd).
  set (choice' := JObj (setField (lit "delta") delta' cfields)).
  set (choices' := setIndex0 choice' choices).
  assert (Hfirst : withFirstDelta delta' (JObj fields) =
                   JObj (setField (lit "choices") choices' fields)).
  { unfold withFirstDelta. cbn [getProp]. now rewrite Hc, H0. }
  assert (Hidx : getIndex0 choices' = Some choice').
  { subst choices'. destruct choices as [| | | |items|ofields]; try contradiction.
    - destruct items; [discriminate | reflexivity].
    - cbn. apply assoc_setField. }
  assert (Hshape' : match choices' with JArr _ | JObj _ => True | _ => False end).
  { subst choices'. destruct choices as [| | | |items|ofields]; try contradiction;
      [destruct items; [discriminate | exact I] | exact I]. }
  rewrite Hfirst. unfold withFirstDelta. cbn [getProp].
  rewrite assoc_setField, Hidx. subst choice'. cbn [setProp].
  rewrite (setField_same (lit "delta") delta' (setField (lit "delta") delta' cfields))
    by apply assoc_setField.
  rewrite (setIndex0_same _ choices' Hidx Hshape').
  now rewrite (setField_same (lit "choices") choices'
                 (setField (lit "choices") choices' fields))
    by apply assoc_setField.
Qed.

(** X8.  With the reasoning display off the rewrite is idempotent: the
    event written for an event is left as it is by a second pass, so a
    second proxy behind the first forwards the same events. *)
Theorem display_off_rewrite_idempotent (cfg : Config) (st st' : bool)
    (data out : json) (trace : list delimiter) :
  SHOW_REASONING cfg = false ->
  transformEvent cfg st data = (Normal (out, trace), st') ->
  transformEvent cfg st out = (Normal (out, []), st).
Proof.
  intros Hoff. unfold transformEvent at 1. rewrite Hoff.
  destruct (firstDelta data) as [[delta|]|] eqn:Hdelta; [| |discriminate].
  - destruct (truthy delta) eqn:Htruthy.
    + intros H. injection H as <- _ _.
      set (v := match getProp (lit "content") delta with
                | Some c => if truthy c then c else JStr []
                | None => JStr []
                end).
      assert (Hv : (if truthy v then v else JStr []) = v)
        by apply (offContent_fixed (getProp (lit "content") delta)).
      clearbody v.
      set (delta' := deleteProp (lit "reasoning_content")
                       (setProp (lit "content") v delta)).
      assert (Hd' : firstDelta (withFirstDelta delta' data) = Normal (Some delta'))
        by (eapply firstDelta_withFirstDelta; eassumption).
      assert (Hfix : truthy delta' = true /\
                deleteProp (lit "reasoning_content")
                  (setProp (lit "content")
                     (match getProp (lit "content") delta' with
                      | Some c => if truthy c then c else JStr []
                      | None => JStr []
                      end) delta') = delta').
      { subst delta'. destruct delta as [| | | | |fields];
          try (split; [exact Htruthy | reflexivity]).
        split; [reflexivity|]. cbn [setProp deleteProp getProp].
        rewrite assoc_filter_other by (intros E; vm_compute in E; discriminate).
        rewrite assoc_setField, Hv. f_equal.
        rewrite (setField_same (lit "content") v).
        - apply filter_twice.
        - rewrite assoc_filter_other by (intros E; vm_compute in E; discriminate).
          apply assoc_setField. }
      destruct Hfix as [Ht' Hsame].
      unfold transformEvent. rewrite Hd', Ht', Hoff, Hsame.
      now rewrite (withFirstDelta_twice data delta delta' Hdelta).
    + intros H. injection H as <- _ _. unfold transformEvent.
      now rewrite Hdelta, Htruthy.
  - intros H. injection H as <- _ _. unfold transformEvent. now rewrite Hdelta.
Qed.

(** X9.  The merge of lines 180-194 on text fragments.  With [R] the
    reasoning text and [C] the content text (empty when absent or
    [null]): an opening delimiter goes before [R] when [R] is not empty
    and the flag is not set; a closing delimiter goes between [R] and
    [C] when [C] is not empty and the flag is set or [R] is not empty;
    the flag ends set when it was set or [R] is not empty, and no
    closing delimiter went out. *)
Theorem text_fragments_merged (st : bool) (reasoning content : option json) :
  textual reasoning = true -> textual content = true ->
  let R := fragment reasoning in
  let C := fragment content in
  let opening := negb (str_eqb R []) && negb st in
  let closing := negb (str_eqb C []) && (st || negb (str_eqb R [])) in
  combineContent st reasoning content =
    (Normal (JStr ((if opening then THINK_OPEN else []) ++ R ++
                   (if closing then THINK_CLOSE else []) ++ C),
             (if opening then [OpenThink] else []) ++
             (if closing then [CloseThink] else [])),
     (st || negb (str_eqb R [])) && negb closing).
Proof.
  intros Hr Hc.
  destruct reasoning as [[| | |[|x r]| |]|]; try discriminate;
    destruct content as [[| | |[|y c]| |]|]; try discriminate;
    destruct st; cbn; rewrite ?app_nil_r; reflexivity.
Qed.

(** ** Model resolution and the model list *)

Lemma fallbackModel_cases (h : handler) (lower : jsstring) :
  fallbackModel h lower = LARGE_MODEL \/ fallbackModel h lower = MID_MODEL \/
  fallbackModel h lower = SMALL_MODEL.
Proof.
  unfold fallbackModel.
  destruct (_ || _ || _); [now left|].
  destruct (_ || _ || _); [right; now left|].
  destruct h; [right; now left | right; now right].
Qed.

(** X10.  A name of the table resolves to the table's value, whatever
    the probe would have answered and in both copies of the handler:
    the probe and the heuristic are not consulted. *)
Theorem table_names_resolved (h : handler) (probe : option Z)
    (model upstream : jsstring) :
  lookup model MODEL_MAPPING = Some upstream ->
  resolveModel h probe model = ModelId upstream.
Proof.
  intros H.
  assert (Hget : MODEL_MAPPING_get model = ModelId upstream)
    by (unfold MODEL_MAPPING_get; now rewrite H).
  rewrite resolveModel_found; [exact Hget|]. rewrite Hget. discriminate.
Qed.

(** X11.  For a name the table lookup does not find, a probe answered
    with a status from 200 to 299 makes the handler send the caller's
    name upstream as it is, provided the name is not empty. *)
Theorem probe_adopts_name (h : handler) (probe : option Z) (model : jsstring) :
  MODEL_MAPPING_get model = Undefined ->
  adopted probe = true ->
  model <> [] ->
  resolveModel h probe model = ModelId model.
Proof.
  intros Hget Hprobe Hne. unfold resolveModel. rewrite Hget. cbn [unset].
  destruct probe as [status|]; [|discriminate]. cbn [adopted] in Hprobe.
  rewrite Hprobe. cbn [unset].
  destruct model; [contradiction | reflexivity].
Qed.

(** X12.  Resolution always ends with a value: [nimModel] is never
    left unset.  It is the table's value, a member of
    [Object.prototype], the caller's name after a successful probe, or
    one of the three defaults. *)
Theorem resolution_always_yields (h : handler) (probe : option Z) (model : jsstring) :
  let resolved := resolveModel h probe model in
  unset resolved = false /\
  ((exists upstream, lookup model MODEL_MAPPING = Some upstream /\
                     resolved = ModelId upstream) \/
   resolved = PrototypeMember model \/
   (adopted probe = true /\ resolved = ModelId model) \/
   resolved = ModelId LARGE_MODEL \/ resolved = ModelId MID_MODEL \/
   resolved = ModelId SMALL_MODEL).
Proof.
  cbv zeta.
  assert (Hfallback : unset (ModelId (fallbackModel h (toLowerCase model))) = false).
  { destruct (fallbackModel_cases h (toLowerCase model)) as [-> | [-> | ->]];
      reflexivity. }
  destruct (unset_table_value model) as [Hget|Hset].
  - unfold resolveModel. rewrite Hget. cbn [unset].
    destruct probe as [status|]; cbn [adopted].
    + destruct ((200 <=? status) && (status <? 300)) eqn:Hs.
      * destruct (unset (ModelId model)) eqn:Hm.
        -- split; [exact Hfallback|]. do 3 right.
           destruct (fallbackModel_cases h (toLowerCase model)) as [-> | [-> | ->]];
             [left | right; left | right; right]; reflexivity.
        -- split; [exact Hm|]. right; right; left. now split.
      * cbn [unset]. split; [exact Hfallback|]. do 3 right.
        destruct (fallbackModel_cases h (toLowerCase model)) as [-> | [-> | ->]];
             [left | right; left | right; right]; reflexivity.
    + cbn [unset]. split; [exact Hfallback|]. do 3 right.
      destruct (fallbackModel_cases h (toLowerCase model)) as [-> | [-> | ->]];
             [left | right; left | right; right]; reflexivity.
  - rewrite resolveModel_found by (intros E; rewrite E in Hset; discriminate).
    split; [exact Hset|]. unfold MODEL_MAPPING_get in *.
    destruct (lookup model MODEL_MAPPING) as [upstream|]; [left; eauto|].
    destruct (existsb (str_eqb model) Object_prototype); [right; now left|discriminate].
Qed.

Lemma modelEntries_ids (clock : nat -> Z) (keys : list jsstring) (i : nat) :
  map (getProp (lit "id")) (modelEntries clock i keys) =
  map (fun k => Some (JStr k)) keys.
Proof.
  revert i; induction keys as [|k rest IH]; intros i; [reflexivity|].
  cbn [modelEntries map]. now rewrite IH.
Qed.

Lemma modelEntries_tags (clock : nat -> Z) (keys : list jsstring) (i : nat) :
  Forall (fun e => getProp (lit "object") e = Some (JStr (lit "model")) /\
                   getProp (lit "owned_by") e = Some (JStr (lit "nvidia-nim-proxy")))
         (modelEntries clock i keys).
Proof.
  revert i; induction keys as [|k rest IH]; intros i; constructor;
    [now split | apply IH].
Qed.

Lemma lookup_key (k : jsstring) (table : list (jsstring * jsstring)) :
  In k (map fst table) -> exists v, lookup k table = Some v.
Proof.
  induction table as [|[k0 v0] rest IH]; [intros []|].
  cbn [map fst lookup]. intros [<-|Hin].
  - rewrite str_eqb_refl. eauto.
  - destruct (str_eqb k k0); [eauto | now apply IH].
Qed.

Lemma lookup_In (k v : jsstring) (table : list (jsstring * jsstring)) :
  lookup k table = Some v -> In (k, v) table.
Proof.
  induction table as [|[k0 v0] rest IH]; [discriminate|].
  cbn [lookup]. destruct (str_eqb k k0) eqn:E.
  - apply str_eqb_eq in E. intros H; injection H as <-. subst. now left.
  - intros H. right. now apply IH.
Qed.

(** X13.  The model list names the keys of the table, one entry per key
    and in the table's order, each tagged [object: "model"] and
    [owned_by: "nvidia-nim-proxy"]; and every name it lists is one the
    handler resolves from the table, whatever the probe. *)
Theorem listed_models_resolve (clock : nat -> Z) (h : handler) (probe : option Z) :
  exists entries,
    getProp (lit "data") (listModels clock) = Some (JArr entries) /\
    map (getProp (lit "id")) entries =
      map (fun kv => Some (JStr (fst kv))) MODEL_MAPPING /\
    Forall (fun e => getProp (lit "object") e = Some (JStr (lit "model")) /\
                     getProp (lit "owned_by") e = Some (JStr (lit "nvidia-nim-proxy")))
           entries /\
    forall e id,
      In e entries -> getProp (lit "id") e = Some (JStr id) ->
      exists upstream,
        In (id, upstream) MODEL_MAPPING /\
        resolveModel h probe id = ModelId upstream.
Proof.
  exists (modelEntries clock 0 (map fst MODEL_MAPPING)).
  split; [reflexivity|]. split; [|split].
  - rewrite modelEntries_ids. now rewrite map_map.
  - apply modelEntries_tags.
  - intros e id Hin Hid.
    assert (Hkey : In id (map fst MODEL_MAPPING)).
    { apply (in_map (getProp (lit "id"))) in Hin.
      rewrite modelEntries_ids, Hid in Hin.
      apply in_map_iff in Hin as (k & Hk & Hin). now injection Hk as <-. }
    destruct (lookup_key id MODEL_MAPPING Hkey) as [upstream Hl].
    exists upstream. split.
    + now apply lookup_In.
    + unfold resolveModel, MODEL_MAPPING_get. rewrite Hl.
      destruct (unset_table_value id) as [Hu|Hu];
        unfold MODEL_MAPPING_get in Hu; rewrite Hl in Hu; [discriminate|].
      now rewrite Hu.
Qed.

(** ** Messages outside the request type *)

Lemma mapM_throw {A B} (f : A -> completion B) (l : list A) (x : A) :
  In x l -> f x = Throw -> mapM f l = Throw.
Proof.
  induction l as [|a rest IH]; [intros []|].
  intros [->|Hin] Hx; cbn [mapM].
  - now rewrite Hx.
  - destruct (f a); [|reflexivity]. cbn [bind]. now rewrite IH.
Qed.

Lemma someSystem_null (messages : list json) :
  In JNull messages ->
  someSystem messages = Throw \/ someSystem messages = Normal true.
Proof.
  induction messages as [|m rest IH]; [intros []|].
  intros [->|Hin]; [now left|]. cbn [someSystem].
  destruct (isSystem m) as [[|]|]; cbn [bind]; [now right | now apply IH | now left].
Qed.

(** X14.  With the detailed-response injection on, a [null] among the
    messages makes the first handler throw while it prepares the
    messages, wherever the [null] stands, whatever the probe of lines
    81-92 answered and whatever else the request holds: no upstream
    request is built, so the call of line 144 is not reached and the
    handler ends in its [catch].  With the injection off the same
    messages are put into the upstream request as they came. *)
Theorem null_message_fails (cfg : Config) (probe : option Z)
    (post : NimRequest.t -> option json) (now now' : Z) (body : Body.t) :
  In JNull (Body.messages body) ->
  (FORCE_DETAILED_RESPONSES cfg = true ->
     upstreamRequest First cfg probe body = Throw /\
     chatCompletion cfg probe post now now' body = Throw) /\
  (FORCE_DETAILED_RESPONSES cfg = false ->
     exists request,
       upstreamRequest First cfg probe body = Normal request /\
       NimRequest.messages request = Body.messages body).
Proof.
  intros Hnull. split; intros Hforce.
  - assert (Hthrow : upstreamRequest First cfg probe body = Throw).
    { unfold upstreamRequest, processedMessages. rewrite Hforce.
      destruct (someSystem_null _ Hnull) as [-> | ->]; [reflexivity|].
      cbn [bind negb].
      now rewrite (mapM_throw enhance _ JNull Hnull eq_refl). }
    split; [exact Hthrow|]. unfold chatCompletion. now rewrite Hthrow.
  - unfold upstreamRequest, processedMessages. rewrite Hforce. cbn [bind].
    eexists. split; reflexivity.
Qed.

Lemma setField_absent (k : jsstring) (v : json) (fields : list (jsstring * json)) :
  assoc k fields = None -> setField k v fields = fields ++ [(k, v)].
Proof.
  induction fields as [|[k0 v0] rest IH]; [reflexivity|].
  cbn [assoc setField]. destruct (str_eqb k k0); [discriminate|].
  intros H. cbn [app]. now rewrite IH.
Qed.

(** X15.  A system message that carries no [content] leaves the
    enhancement with one: the text [undefined] followed by the fixed
    suffix, written after the fields the message had; a [content] of
    [null] becomes the text [null] followed by the suffix.  In both
    cases the other fields are as they were. *)
Theorem system_message_without_text (fields : list (jsstring * json)) :
  systemRole (JObj fields) = true ->
  (assoc (lit "content") fields = None ->
     enhance (JObj fields) =
     Normal (JObj (fields ++
                   [(lit "content", JStr (lit "undefined" ++ ELABORATION_SUFFIX))]))) /\
  (assoc (lit "content") fields = Some JNull ->
     exists fields',
       enhance (JObj fields) = Normal (JObj fields') /\
       assoc (lit "content") fields' = Some (JStr (lit "null" ++ ELABORATION_SUFFIX)) /\
       forall k, k <> lit "content" -> assoc k fields' = assoc k fields).
Proof.
  intros Hs. unfold enhance.
  rewrite isSystem_systemRole by discriminate. rewrite Hs. cbn [bind getProp].
  split; intros Hc; rewrite Hc; cbn [toText_opt toText bind setProp].
  - now rewrite setField_absent.
  - eexists. split; [reflexivity|]. split; [apply assoc_setField|].
    intros k Hk. now apply assoc_setField_other.
Qed.

(** ** The answer of the non-streaming path *)

Lemma mapM_Forall2 {A B} (f : A -> completion B) (l : list A) (l' : list B) :
  mapM f l = Normal l' -> Forall2 (fun x y => f x = Normal y) l l'.
Proof.
  revert l'; induction l as [|x rest IH]; intros l'; cbn [mapM].
  - intros H; injection H as <-. constructor.
  - destruct (f x) as [y|] eqn:Hx; [|discriminate]. cbn [bind].
    destruct (mapM f rest) as [ys|]; [|discriminate]. cbn [bind].
    intros H; injection H as <-. constructor; [exact Hx | now apply IH].
Qed.

Lemma bind_inv {A B} (c : completion A) (k : A -> completion B) (b : B) :
  bind c k = Normal b -> exists a, c = Normal a /\ k a = Normal b.
Proof. destruct c as [a|]; [eauto | discriminate]. Qed.

Lemma transformChoice_fields (cfg : Config) (item : json) (c : Choice.t) :
  transformChoice cfg item = Normal c ->
  Choice.index c = getProp (lit "index") item /\
  Choice.finish_reason c = getProp (lit "finish_reason") item /\
  exists message,
    getProp (lit "message") item = Some message /\ message <> JNull /\
    Choice.role c = getProp (lit "role") message.
Proof.
  unfold transformChoice. intros H.
  destruct item; try discriminate;
    apply bind_inv in H as (full & _ & H);
    (destruct (getProp (lit "message") _) as [message|]; [|discriminate]);
    (destruct message; try discriminate);
    injection H as <-; cbn [Choice.index Choice.finish_reason Choice.role];
    (split; [reflexivity|]; split; [reflexivity|]);
    eexists; (split; [reflexivity|]); (split; [discriminate | reflexivity]).
Qed.

(** X16.  An answer the non-streaming path builds has one choice per
    choice of the upstream's answer, in the same order, each with the
    upstream's [index] and [finish_reason] and with the [role] of the
    upstream's message; its [usage] is the upstream's when that is truthy
    and three zero counts otherwise; its [id] is [chatcmpl-] followed by
    the first clock reading and [created] is the second reading in whole
    seconds. *)
Theorem answer_shape (cfg : Config) (now now' : Z) (model : jsstring)
    (data : json) (response : OpenAIResponse.t) :
  openaiResponse cfg now now' model data = Normal response ->
  (exists items,
     getProp (lit "choices") data = Some (JArr items) /\
     List.length (OpenAIResponse.choices response) = List.length items /\
     Forall2
       (fun item c =>
          Choice.index c = getProp (lit "index") item /\
          Choice.finish_reason c = getProp (lit "finish_reason") item /\
          exists message,
            getProp (lit "message") item = Some message /\ message <> JNull /\
            Choice.role c = getProp (lit "role") message)
       items (OpenAIResponse.choices response)) /\
  OpenAIResponse.usage response =
    (match getProp (lit "usage") data with
     | Some usage => if truthy usage then usage else ZERO_USAGE
     | None => ZERO_USAGE
     end) /\
  OpenAIResponse.id response = lit "chatcmpl-" ++ decimal now /\
  OpenAIResponse.object response = lit "chat.completion" /\
  OpenAIResponse.created response = now' / 1000.
Proof.
  unfold openaiResponse. intros H.
  assert (Hshape : exists items choices,
             getProp (lit "choices") data = Some (JArr items) /\
             mapM (transformChoice cfg) items = Normal choices /\
             response =
             {| OpenAIResponse.id := lit "chatcmpl-" ++ decimal now;
                OpenAIResponse.object := lit "chat.completion";
                OpenAIResponse.created := now' / 1000;
                OpenAIResponse.model := model;
                OpenAIResponse.choices := choices;
                OpenAIResponse.usage :=
                  orElse (getProp (lit "usage") data) ZERO_USAGE |}).
  { destruct data; try discriminate;
      (destruct (getProp (lit "choices") _) as [[| | | |items|]|]; try discriminate);
      (destruct (mapM (transformChoice cfg) items) as [choices|] eqn:Hmap;
       [|discriminate]);
      cbn [bind] in H; injection H as <-; exists items, choices;
      (split; [reflexivity|]); (split; [exact Hmap | reflexivity]). }
  destruct Hshape as (items & choices & Hitems & Hmap & ->).
  cbn [OpenAIResponse.choices OpenAIResponse.usage OpenAIResponse.id
       OpenAIResponse.object OpenAIResponse.created].
  apply mapM_Forall2 in Hmap.
  split; [|split; [reflexivity | split; [reflexivity | split; reflexivity]]].
  exists items. split; [exact Hitems|]. split.
  - symmetry. exact (Forall2_length Hmap).
  - clear H Hitems. induction Hmap as [|item c rest rest' Hc _ IH]; constructor.
    + now apply (transformChoice_fields cfg).
    + exact IH.
Qed.

(** What the answer shows for a choice of the response type. *)
Lemma transformChoice_content (cfg : Config) (item : json) :
  isChoice item = true ->
  exists c,
    transformChoice cfg item = Normal c /\
    let message := getProp (lit "message") item in
    let reasoning := fragment (optProp (lit "reasoning_content") message) in
    let content := fragment (optProp (lit "content") message) in
    Choice.content c =
    JStr (if SHOW_REASONING cfg && negb (str_eqb reasoning [])
          then THINK_OPEN ++ reasoning ++ [NEWLINE] ++ THINK_CLOSE ++ content
          else content).
Proof.
  unfold isChoice, transformChoice. intros H.
  destruct item; try discriminate;
    (destruct (getProp (lit "message") _) as [message|]; [|discriminate]);
    (destruct message; try discriminate);
    apply andb_true_iff in H as [Hc Hr]; unfold optProp;
    (destruct (getProp (lit "content") _) as [[| | |[|x full]| |]|];
     try discriminate);
    (destruct (getProp (lit "reasoning_content") _) as [[| | |[|y thought]| |]|];
     try discriminate);
    destruct (SHOW_REASONING cfg); cbn; eexists; split; reflexivity.
Qed.

(** X17.  A request that does not stream, with messages of the request
    type, answered by the upstream with choices of the response type,
    gets a completion with one choice per choice of the upstream; each
    shows the upstream's content, preceded, when reasoning display is on
    and the choice has reasoning text, by that text between [<think>]
    and [</think>] lines.  With reasoning display off the reasoning is
    left out. *)
Theorem completion_content (cfg : Config) (probe : option Z)
    (post : NimRequest.t -> option json) (now now' : Z) (body : Body.t)
    (fields : list (jsstring * json)) (items : list json) :
  truthy_opt (Body.stream body) = false ->
  forallb isMessage (Body.messages body) = true ->
  (forall request, post request = Some (JObj fields)) ->
  assoc (lit "choices") fields = Some (JArr items) ->
  forallb isChoice items = true ->
  exists response,
    chatCompletion cfg probe post now now' body = Normal (Some response) /\
    Forall2
      (fun item c =>
         let message := getProp (lit "message") item in
         let reasoning := fragment (optProp (lit "reasoning_content") message) in
         let content := fragment (optProp (lit "content") message) in
         Choice.content c =
         JStr (if SHOW_REASONING cfg && negb (str_eqb reasoning [])
               then THINK_OPEN ++ reasoning ++ [NEWLINE] ++ THINK_CLOSE ++ content
               else content))
      items (OpenAIResponse.choices response).
Proof.
  intros Hstream Hmsgs Hpost Hchoices Hitems.
  destruct (chatCompletion_answers cfg probe post now now' body Hstream Hmsgs)
    as [response Hr].
  { intros request. exists fields, items. now rewrite Hpost. }
  exists response. split; [exact Hr|].
  unfold chatCompletion in Hr.
  destruct (upstreamRequest First cfg probe body) as [request|]; [|discriminate].
  cbn [bind] in Hr. rewrite Hpost, Hstream in Hr.
  unfold openaiResponse in Hr. cbn [getProp] in Hr. rewrite Hchoices in Hr.
  destruct (mapM (transformChoice cfg) items) as [choices|] eqn:Hmap; [|discriminate].
  cbn [bind] in Hr. injection Hr as <-. cbn [OpenAIResponse.choices].
  apply mapM_Forall2 in Hmap. clear Hchoices.
  induction Hmap as [|item c items' choices' Hc _ IH]; [constructor|].
  cbn [forallb] in Hitems. apply andb_true_iff in Hitems as [Hitem Hrest].
  constructor; [|now apply IH].
  destruct (transformChoice_content cfg item Hitem) as (c' & Hc' & Hcontent).
  rewrite Hc in Hc'. injection Hc' as <-. exact Hcontent.
Qed.

(** X18.  One choice that is [null] or has no message makes the whole
    answer fail, whatever the other choices are; so does an answer whose
    [choices] is not an array.  The handler then ends in its [catch]. *)
Theorem malformed_answer_fails (cfg : Config) (probe : option Z)
    (post : NimRequest.t -> option json) (now now' : Z) (body : Body.t)
    (data : json) :
  (forall request, post request = Some data) ->
  truthy_opt (Body.stream body) = false ->
  (forall items, getProp (lit "choices") data <> Some (JArr items)) \/
  (exists items item,
     getProp (lit "choices") data = Some (JArr items) /\ In item items /\
     (getProp (lit "message") item = None \/
      getProp (lit "message") item = Some JNull)) ->
  openaiResponse cfg now now' (Body.model body) data = Throw /\
  chatCompletion cfg probe post now now' body = Throw.
Proof.
  intros Hpost Hstream Hbad.
  assert (Hthrow : openaiResponse cfg now now' (Body.model body) data = Throw).
  { unfold openaiResponse. destruct Hbad as [Hnone | (items & item & Hitems & Hin & Hmsg)].
    - destruct data; try reflexivity;
        destruct (getProp (lit "choices") _) as [[| | | |items|]|]; try reflexivity;
        now destruct (Hnone items).
    - assert (Hitem : transformChoice cfg item = Throw).
      { unfold transformChoice. destruct item; try reflexivity;
          destruct Hmsg as [-> | ->]; cbn [optProp orElse truthy_opt andb];
          rewrite andb_false_r; reflexivity. }
      destruct data; try discriminate; rewrite Hitems;
        now rewrite (mapM_throw (transformChoice cfg) items item Hin Hitem). }
  split; [exact Hthrow|].
  unfold chatCompletion.
  destruct (upstreamRequest First cfg probe body) as [request|]; cbn [bind].
  - now rewrite Hpost, Hstream, Hthrow.
  - reflexivity.
Qed.

(** ** The delimiters and what is written *)

Lemma firstn_snoc {A} (l : list A) (n : nat) (x : A) :
  nth_error l n = Some x -> firstn (S n) l = firstn n l ++ [x].
Proof.
  revert l; induction n as [|n IH]; intros [|a l]; cbn [nth_error]; try discriminate.
  - intros H; injection H as <-. reflexivity.
  - intros H. change (firstn (S (S n)) (a :: l)) with (a :: firstn (S n) l).
    now rewrite (IH l H).
Qed.

(** One more line: the writes and the delimiters of the line follow
    those of the lines before it. *)
Lemma processLines_snoc (cfg : Config) (st : bool) (lines : list jsstring)
    (n : nat) (line : jsstring) :
  nth_error lines n = Some line ->
  processLines cfg st (firstn (S n) lines) =
  let r := processLines cfg st (firstn n lines) in
  let step := processLine cfg (started r) line in
  {| written := written r ++ written step;
     started := started step;
     emitted := emitted r ++ emitted step |}.
Proof.
  intros H. rewrite (firstn_snoc _ _ _ H), processLines_app. cbv zeta.
  cbn [processLines written started emitted]. now rewrite !app_nil_r.
Qed.

(** A delimiter recorded for [combinedContent] stands in its text. *)
Lemma combineContent_render (st st' : bool) (reasoning content : option json)
    (combined : json) (trace : list delimiter) :
  combineContent st reasoning content = (Normal (combined, trace), st') ->
  trace <> [] ->
  exists r c, combined = JStr (render trace r c).
Proof.
  unfold combineContent.
  destruct (truthy_opt reasoning && negb st) eqn:Hfirst.
  - destruct (toText_opt reasoning) as [r|]; [|discriminate].
    destruct (truthy_opt content); cbn [andb].
    + destruct (toText_opt content) as [c|]; cbn; [|discriminate].
      intros H _; injection H as <- <- <-. exists r, c. reflexivity.
    + intros H _; injection H as <- <- <-. exists r, []. cbn [render].
      rewrite app_nil_r. reflexivity.
  - assert (Hraw : forall v,
      (if truthy_opt content && st
       then match (c <- toText_opt content ;; l <- toText v ;;
                   Normal (l ++ THINK_CLOSE ++ c)) with
            | Normal s => (Normal (JStr s, [] ++ [CloseThink]), false)
            | Throw => (Throw, st)
            end
       else if truthy_opt content
            then match (l <- toText v ;; c <- toText_opt content ;;
                        Normal (l ++ c)) with
                 | Normal s => (Normal (JStr s, []), st)
                 | Throw => (Throw, st)
                 end
            else (Normal (v, []), st)) = (Normal (combined, trace), st') ->
      trace <> [] -> exists r c, combined = JStr (render trace r c)).
    { intros v. destruct (truthy_opt content), st; cbn [andb].
      - destruct (toText_opt content) as [c|]; cbn; [|discriminate].
        destruct (toText v) as [l|]; cbn; [|discriminate].
        intros H _; injection H as <- <- <-. now exists l, c.
      - destruct (toText v) as [l|]; cbn; [|discriminate].
        destruct (toText_opt content) as [c|]; cbn; [|discriminate].
        intros H Hne; injection H as <- <- <-. now destruct Hne.
      - intros H Hne; injection H as <- <- <-. now destruct Hne.
      - intros H Hne; injection H as <- <- <-. now destruct Hne. }
    destruct reasoning as [r|]; [destruct (truthy r)|]; apply Hraw.
Qed.

(** A line for which delimiters are recorded is answered by a frame
    whose first delta holds them in its content. *)
Lemma processLine_counted (cfg : Config) (st : bool) (line : jsstring) :
  emitted (processLine cfg st line) <> [] ->
  exists out delta r c,
    SHOW_REASONING cfg = true /\
    written (processLine cfg st line) = [frame out] /\
    firstDelta out = Normal (Some delta) /\
    getProp (lit "content") delta =
      Some (JStr (render (emitted (processLine cfg st line)) r c)) /\
    getProp (lit "reasoning_content") delta = None.
Proof.
  unfold processLine.
  destruct (startsWith DATA_PREFIX line); [|intros H; now destruct H].
  destruct (includes DONE line); [intros H; now destruct H|].
  destruct (JSON_parse (slice 6 line)) as [data|]; [|intros H; now destruct H].
  destruct (transformEvent cfg st data) as [[[out trace]|] st'] eqn:Ht;
    cbn [emitted written]; [|intros H; now destruct H].
  intros Hne. unfold transformEvent in Ht.
  destruct (firstDelta data) as [[delta|]|] eqn:Hd; [| |discriminate];
    [|injection Ht as _ <- _; now destruct Hne].
  destruct (truthy delta); [|injection Ht as _ <- _; now destruct Hne].
  destruct (SHOW_REASONING cfg); [|injection Ht as _ <- _; now destruct Hne].
  destruct (combineContent st _ _) as [[[combined tr]|] started'] eqn:Hc;
    [|discriminate].
  destruct (truthy combined); [|injection Ht as _ <- _; now destruct Hne].
  injection Ht as <- <- <-.
  destruct delta as [| | | | |fields];
    try (cbn in Hc; injection Hc as _ <- _; now destruct Hne).
  destruct (combineContent_render _ _ _ _ _ _ Hc Hne) as (r & c & ->).
  eexists _, _, r, c. split; [reflexivity|]. split; [reflexivity|].
  split; [eapply firstDelta_withFirstDelta; eassumption|].
  cbn [setProp deleteProp getProp]. split; [|apply assoc_deleted].
  rewrite assoc_filter_other by (intros E; vm_compute in E; discriminate).
  apply assoc_setField.
Qed.

Lemma render_empty (st : bool) (R C : jsstring) :
  R ++ C <> [] -> truthy (JStr (render (delimiters st R C) R C)) = true.
Proof.
  intros Hne. destruct R as [|x R], C as [|y C], st; try reflexivity;
    now destruct Hne.
Qed.

(** The line of an event whose first delta has text fragments [R] and
    [C]: the delimiters recorded are those of the flag and the two
    texts, and the frame written holds them around [R]. *)
Lemma processLine_text (cfg : Config) (st : bool) (line : jsstring)
    (data : json) (fields : list (jsstring * json)) :
  SHOW_REASONING cfg = true ->
  startsWith DATA_PREFIX line = true ->
  includes DONE line = false ->
  JSON_parse (slice 6 line) = Some data ->
  firstDelta data = Normal (Some (JObj fields)) ->
  textual (assoc (lit "reasoning_content") fields) = true ->
  textual (assoc (lit "content") fields) = true ->
  let R := fragment (assoc (lit "reasoning_content") fields) in
  let C := fragment (assoc (lit "content") fields) in
  let step := processLine cfg st line in
  emitted step = delimiters st R C /\
  (R ++ C <> [] ->
     exists out fields',
       written step = [frame out] /\
       firstDelta out = Normal (Some (JObj fields')) /\
       assoc (lit "content") fields' = Some (JStr (render (delimiters st R C) R C)) /\
       assoc (lit "reasoning_content") fields' = None) /\
  (R ++ C = [] -> written step = [frame data]).
Proof.
  intros Hshow Hp Hd Hj Hdelta Hr Hc. cbv zeta.
  destruct (combineContent_text st _ _ Hr Hc) as [st' Hcomb]. cbv zeta in Hcomb.
  unfold processLine. rewrite Hp, Hd, Hj. unfold transformEvent.
  rewrite Hdelta, Hshow. cbn [truthy getProp]. rewrite Hcomb.
  set (R := fragment (assoc (lit "reasoning_content") fields)) in *.
  set (C := fragment (assoc (lit "content") fields)) in *.
  destruct (truthy (JStr (render (delimiters st R C) R C))) eqn:Ht.
  - cbn [emitted written]. split; [reflexivity|]. split.
    + intros _. do 2 eexists. split; [reflexivity|].
      split; [eapply firstDelta_withFirstDelta; eassumption|].
      cbn [setProp deleteProp]. split; [|apply assoc_deleted].
      rewrite assoc_filter_other by (intros E; vm_compute in E; discriminate).
      apply assoc_setField.
    + intros Hempty. apply app_eq_nil in Hempty as [HR HC].
      rewrite HR, HC in Ht. now destruct st.
  - cbn [emitted written].
    assert (Hempty : R ++ C = []).
    { destruct (R ++ C) eqn:E; [reflexivity|].
      rewrite render_empty in Ht; [discriminate|]. rewrite E. discriminate. }
    apply app_eq_nil in Hempty as [HR HC]. rewrite HR, HC.
    split; [now destruct st|]. split; [intros H; now destruct H | reflexivity].
Qed.

(** C10, as the handler has it.  For a stream whose content fragments
    convert to text (every stream of events whose fragments are text,
    [null] or absent is one), after each line, that is after the first
    [n] lines for every [n]:
    (1) the delimiters written so far alternate, opening first, the
    opening ones outnumber the closing ones by 0 or 1, and that
    difference is the value of [reasoningStarted];
    (2) the next line adds its writes and its delimiters to them, and
    the delimiters are in what is written: when the line counts any, it
    is answered by one frame whose first delta has for content a
    reasoning text and a content text with exactly those delimiters, the
    opening one before the reasoning, the closing one between the two,
    and has no [reasoning_content];
    (3) with the reasoning display on, a next line whose event has text
    fragments [R] and [C] in its first delta counts an opening delimiter
    exactly when [R] is not empty and the flag is clear, a closing one
    exactly when [C] is not empty and the flag is set or [R] is not
    empty, and is answered by the frame whose first delta has for
    content [R] and [C] with those delimiters, or, when both are empty,
    by the frame of the event as it came. *)
Theorem delimiters_follow_flag (cfg : Config) (lines : list jsstring) (n : nat) :
  forallb contentConverts lines = true ->
  let r := processLines cfg false (firstn n lines) in
  (track false (emitted r) = Some (started r) /\
   opens (emitted r) - closes (emitted r) = Z.b2z (started r) /\
   0 <= opens (emitted r) - closes (emitted r) <= 1) /\
  forall line,
    nth_error lines n = Some line ->
    let step := processLine cfg (started r) line in
    processLines cfg false (firstn (S n) lines) =
      {| written := written r ++ written step;
         started := started step;
         emitted := emitted r ++ emitted step |} /\
    (emitted step = [] \/
     exists out delta reasoning content,
       SHOW_REASONING cfg = true /\
       written step = [frame out] /\
       firstDelta out = Normal (Some delta) /\
       getProp (lit "content") delta =
         Some (JStr (render (emitted step) reasoning content)) /\
       getProp (lit "reasoning_content") delta = None) /\
    (forall data fields,
        SHOW_REASONING cfg = true ->
        startsWith DATA_PREFIX line = true ->
        includes DONE line = false ->
        JSON_parse (slice 6 line) = Some data ->
        firstDelta data = Normal (Some (JObj fields)) ->
        textual (assoc (lit "reasoning_content") fields) = true ->
        textual (assoc (lit "content") fields) = true ->
        let R := fragment (assoc (lit "reasoning_content") fields) in
        let C := fragment (assoc (lit "content") fields) in
        emitted step = delimiters (started r) R C /\
        (R ++ C <> [] ->
           exists out fields',
             written step = [frame out] /\
             firstDelta out = Normal (Some (JObj fields')) /\
             assoc (lit "content") fields' =
               Some (JStr (render (delimiters (started r) R C) R C)) /\
             assoc (lit "reasoning_content") fields' = None) /\
        (R ++ C = [] -> written step = [frame data])).
Proof.
  intros Hconv r.
  assert (Ht : track false (emitted r) = Some (started r)).
  { apply processLines_track, forallb_firstn, Hconv. }
  pose proof (track_count _ _ _ Ht) as Hcount. cbn [Z.b2z] in Hcount.
  split.
  { repeat split; [exact Ht | lia | | ]; destruct (started r); cbn [Z.b2z] in *; lia. }
  intros line Hline step. split; [|split].
  - exact (processLines_snoc cfg false lines n line Hline).
  - destruct (emitted step) as [|d trace] eqn:He; [now left|]. right.
    rewrite <- He. apply processLine_counted. subst step. rewrite He. discriminate.
  - intros data fields. apply processLine_text.
Qed.

Lemma notIn_checked (c : Z) (s : jsstring) :
  existsb (Z.eqb c) s = false -> ~ In c s.
Proof.
  intros H Hin. assert (Ht : existsb (Z.eqb c) s = true).
  { apply existsb_exists. exists c. split; [exact Hin | apply Z.eqb_refl]. }
  rewrite H in Ht. discriminate.
Qed.

End Proxy.

(* ================================================================== *)
(** * Runs on the sample inputs *)
(* ================================================================== *)

(** C1 at the failing input.  The bytes of
    [data: {"choices":[{"delta":{"content": e-acute}}]}] and their
    newline, delivered as one chunk and delivered as two chunks cut
    between the two bytes of the letter: the same bytes, but each chunk
    is decoded on its own, so the second delivery hands [forEach] a line
    with two U+FFFD where the letter was, and the client is sent a
    different frame. *)
Theorem character_cut_by_chunk_boundary :
  let whole := [accentBytes] in
  let cut := [accentHead ++ [0xC3]; [0xA9] ++ accentTail] in
  let parse := parse_among [accentEvent; brokenEvent] in
  List.concat cut = List.concat whole /\
  (forall JSON_parse cfg,
      snd (fst (feedChunks JSON_parse cfg initial whole)) = [eventLine accentEvent]) /\
  (forall JSON_parse cfg,
      snd (fst (feedChunks JSON_parse cfg initial cut)) = [eventLine brokenEvent]) /\
  outbound parse deployed whole = frame accentEvent /\
  outbound parse deployed cut = frame brokenEvent /\
  frame accentEvent <> frame brokenEvent.
Proof.
  cbv zeta. split; [reflexivity|]. split; [|split].
  - intros JSON_parse cfg. unfold feedChunks.
    rewrite feedTexts_concat by apply held_initial. reflexivity.
  - intros JSON_parse cfg. unfold feedChunks.
    rewrite feedTexts_concat by apply held_initial. reflexivity.
  - split; [vm_compute; reflexivity|]. split; [vm_compute; reflexivity|].
    vm_compute. discriminate.
Qed.

(** The same two deliveries under any parser that reads the two lines
    as the events they denote. *)
Lemma character_cut_under_any_parser (JSON_parse : jsstring -> option json) :
  JSON_parse (JSON_stringify accentEvent) = Some accentEvent ->
  JSON_parse (JSON_stringify brokenEvent) = Some brokenEvent ->
  outbound JSON_parse deployed [accentBytes] = frame accentEvent /\
  outbound JSON_parse deployed [accentHead ++ [0xC3]; [0xA9] ++ accentTail]
    = frame brokenEvent.
Proof.
  intros Hwhole Hcut. unfold outbound, feedChunks.
  rewrite !feedTexts_concat by apply held_initial. cbv zeta. cbn [snd].
  split.
  - change (removelast (split NEWLINE
              (buffer initial ++ List.concat (map chunk_toString [accentBytes]))))
      with [eventLine accentEvent].
    cbn [processLines reasoningStarted initial].
    rewrite (processLine_event JSON_parse deployed false false accentEvent accentEvent [])
      by (assumption || reflexivity).
    cbn [written List.concat]. now rewrite !app_nil_r.
  - change (removelast (split NEWLINE
              (buffer initial ++
               List.concat (map chunk_toString
                              [accentHead ++ [0xC3]; [0xA9] ++ accentTail]))))
      with [eventLine brokenEvent].
    cbn [processLines reasoningStarted initial].
    rewrite (processLine_event JSON_parse deployed false false brokenEvent brokenEvent [])
      by (assumption || reflexivity).
    cbn [written List.concat]. now rewrite !app_nil_r.
Qed.

(** C5 at the failing input.  The line of a content delta whose text is
    ["[DONE]"], with a reasoning fragment beside it: whatever the parser
    and the configuration, the line is written back as it is, with one
    newline; the rewrite of the same event, which the deployed
    configuration applies to every other content delta, would have
    dropped the reasoning fragment and written a different frame. *)
Theorem sentinel_text_inside_content :
  let line := eventLine quotingEvent in
  (forall JSON_parse cfg st,
      processLine JSON_parse cfg st line =
      {| written := [line ++ [NEWLINE]]; started := st; emitted := [] |}) /\
  includes (quoted "reasoning_content") line = true /\
  exists out,
    transformEvent deployed false quotingEvent = (Normal (out, []), false) /\
    firstDelta out = Normal (Some (JObj [ (lit "content", JStr (lit "[DONE]")) ])) /\
    line ++ [NEWLINE] <> frame out.
Proof.
  cbv zeta. split; [|split].
  - intros JSON_parse cfg st. apply sentinel_anywhere; reflexivity.
  - reflexivity.
  - eexists. split; [reflexivity|]. split; [reflexivity|].
    vm_compute. discriminate.
Qed.

(** C2 at the failing input.  With the reasoning display on, an event
    whose first delta carries a [reasoning_content] key but no text (the
    role delta that opens a stream, with [content: ""] and
    [reasoning_content: null]; a delta with [reasoning_content: ""]) is
    written back as it came: the frame sent to the client still holds
    the [reasoning_content] key.  This holds for every parser, flag and
    line of that kind.  With the display off the same role delta leaves
    without the key. *)
Theorem reasoning_key_left_in_delta :
  let parse := parse_among [roleEvent; emptyReasoningEvent] in
  (forall JSON_parse cfg st line data fields,
      SHOW_REASONING cfg = true ->
      startsWith DATA_PREFIX line = true ->
      includes DONE line = false ->
      JSON_parse (slice 6 line) = Some data ->
      firstDelta data = Normal (Some (JObj fields)) ->
      truthy_opt (assoc (lit "reasoning_content") fields) = false ->
      truthy_opt (assoc (lit "content") fields) = false ->
      processLine JSON_parse cfg st line =
      {| written := [frame data]; started := st; emitted := [] |}) /\
  written (processLine parse displaying false (eventLine roleEvent)) =
    [frame roleEvent] /\
  written (processLine parse displaying false (eventLine emptyReasoningEvent)) =
    [frame emptyReasoningEvent] /\
  (exists delta, firstDelta roleEvent = Normal (Some delta) /\
                 getProp (lit "reasoning_content") delta = Some JNull) /\
  includes (quoted "reasoning_content") (frame roleEvent) = true /\
  includes (quoted "reasoning_content") (frame emptyReasoningEvent) = true /\
  (exists out delta,
      written (processLine parse deployed false (eventLine roleEvent)) = [frame out] /\
      firstDelta out = Normal (Some delta) /\
      getProp (lit "reasoning_content") delta = None /\
      includes (quoted "reasoning_content") (frame out) = false).
Proof.
  cbv zeta. split; [|split; [|split; [|split; [|split; [|split]]]]].
  - intros JSON_parse cfg st line data fields.
    apply falsy_fragments_unchanged.
  - vm_compute. reflexivity.
  - vm_compute. reflexivity.
  - eexists. split; reflexivity.
  - vm_compute. reflexivity.
  - vm_compute. reflexivity.
  - exists (deltaEvent (JObj [ (lit "role", JStr (lit "assistant"));
                               (lit "content", JStr []) ])).
    eexists. split; [vm_compute; reflexivity|].
    split; [reflexivity|]. split; [reflexivity|]. vm_compute. reflexivity.
Qed.

(** The reasoning test of the specification: [R], then [C]. *)
Lemma reasoning_merged_into_content_witness :
  exists out1 out2,
    written (processLines (parse_among [reasoningEvent; contentEvent]) displaying false
               [eventLine reasoningEvent; eventLine contentEvent]) =
      [frame out1; frame out2] /\
    firstDelta out1 =
      Normal (Some (JObj [ (lit "content", JStr (THINK_OPEN ++ lit "R")) ])) /\
    firstDelta out2 =
      Normal (Some (JObj [ (lit "content", JStr (THINK_CLOSE ++ lit "C")) ])).
Proof.
  apply (proj1 (reasoning_merged_into_content
                  (parse_among [reasoningEvent; contentEvent]) displaying eq_refl)
           (lit "R") (lit "C") (eventLine reasoningEvent) (eventLine contentEvent)
           reasoningEvent contentEvent);
    solve [discriminate | vm_compute; reflexivity].
Defined.

(** C4 is not what the first copy of the handler does with the
    remaining names.  ["mistral-7b"] is not in the table and holds none
    of the six substrings; with a failed probe the first copy resolves
    it to the 70b model, the one it gives to ["claude-x"], not to the 8b
    model of the second copy.  And a name of [Object.prototype], absent
    from the table as well, never reaches the heuristic. *)
Lemma remaining_names_get_the_mid_model :
  let name := lit "mistral-7b" in
  MODEL_MAPPING_get name = Undefined /\
  forallb (fun p => negb (includes (lit p) (asciiLower name)))
    ["gpt-4"; "claude-opus"; "405b"; "claude"; "gemini"; "70b"]%string = true /\
  resolveModel asciiLower First None name = ModelId MID_MODEL /\
  resolveModel asciiLower First None (lit "claude-x") = ModelId MID_MODEL /\
  resolveModel asciiLower Second None name = ModelId SMALL_MODEL /\
  MID_MODEL <> SMALL_MODEL /\
  lookup (lit "constructor") MODEL_MAPPING = None /\
  resolveModel asciiLower First None (lit "constructor") =
    PrototypeMember (lit "constructor").
Proof.
  cbv zeta. repeat split; try (vm_compute; reflexivity). vm_compute. discriminate.
Qed.

(** Four names outside the table, with a failed or refused probe. *)
Lemma fallback_by_substring_witness :
  resolveModel asciiLower Second (Some 404) (lit "Llama-405B-chat") = ModelId LARGE_MODEL /\
  resolveModel asciiLower First None (lit "gemini-ultra") = ModelId MID_MODEL /\
  resolveModel asciiLower First (Some 404) (lit "mistral-7b") = ModelId MID_MODEL /\
  resolveModel asciiLower Second (Some 404) (lit "mistral-7b") = ModelId SMALL_MODEL.
Proof.
  split; [|split; [|split]].
  - exact (fallback_by_substring asciiLower Second (Some 404) (lit "Llama-405B-chat")
             eq_refl eq_refl).
  - exact (fallback_by_substring asciiLower First None (lit "gemini-ultra")
             eq_refl eq_refl).
  - exact (fallback_by_substring asciiLower First (Some 404) (lit "mistral-7b")
             eq_refl eq_refl).
  - exact (fallback_by_substring asciiLower Second (Some 404) (lit "mistral-7b")
             eq_refl eq_refl).
Defined.

(** A request without and a request with a system message, as deployed. *)
Lemma prompt_augmentation_witness :
  (exists r,
      upstreamRequest asciiLower First deployed None (request (lit "gpt-4") [userMessage])
        = Normal r /\
      NimRequest.messages r = [SYSTEM_MESSAGE; userMessage]) /\
  (exists r,
      upstreamRequest asciiLower First deployed None
        (request (lit "gpt-4") [userMessage; systemMessage]) = Normal r /\
      NimRequest.messages r =
        [userMessage;
         JObj [ (lit "role", JStr (lit "system"));
                (lit "content", JStr (lit "Be brief." ++ ELABORATION_SUFFIX));
                (lit "name", JStr (lit "ops")) ]]).
Proof.
  split.
  - destruct (prompt_augmentation asciiLower deployed None
                (request (lit "gpt-4") [userMessage]) eq_refl eq_refl)
      as (r & Hr & Hnone & _).
    exists r. split; [exact Hr|]. exact (proj1 (Hnone eq_refl)).
  - destruct (prompt_augmentation asciiLower deployed None
                (request (lit "gpt-4") [userMessage; systemMessage]) eq_refl eq_refl)
      as (r & Hr & _).
    exists r. split; [exact Hr|].
    vm_compute in Hr. injection Hr as <-. reflexivity.
Defined.

(** C7 at the failing input.  The bytes of an event line cut short
    after an accented letter, so that its payload does not parse, and
    their newline.  Delivered as one chunk, the bytes sent to the client
    are the bytes received.  Delivered as two chunks cut between the two
    bytes of the letter, each chunk is decoded on its own (line 162)
    before the [catch] of line 211 writes the line back: the client is
    sent the six bytes of two U+FFFD where the two bytes of the letter
    were.  Both hold for every configuration and every parser that
    rejects the payload. *)
Theorem unparseable_line_bytes_changed :
  let whole := [truncatedLine ++ [NEWLINE]] in
  let cut := [accentHead ++ [0xC3]; [0xA9; NEWLINE]] in
  let sent := accentHead ++ [0xEF; 0xBF; 0xBD; 0xEF; 0xBF; 0xBD] ++ [NEWLINE] in
  List.concat cut = List.concat whole /\
  startsWith DATA_PREFIX truncatedText = true /\
  startsWith DATA_PREFIX garbledText = true /\
  (forall JSON_parse cfg,
      JSON_parse (slice 6 truncatedText) = None ->
      outbound JSON_parse cfg whole = truncatedText ++ [NEWLINE] /\
      outboundBytes JSON_parse cfg whole = List.concat whole) /\
  (forall JSON_parse cfg,
      JSON_parse (slice 6 garbledText) = None ->
      outbound JSON_parse cfg cut = garbledText ++ [NEWLINE] /\
      outboundBytes JSON_parse cfg cut = sent) /\
  sent <> List.concat cut /\
  outboundBytes (parse_among []) deployed cut <> List.concat cut.
Proof.
  cbv zeta.
  split; [reflexivity|]. split; [reflexivity|]. split; [reflexivity|].
  split; [|split; [|split]].
  - intros JSON_parse cfg Hparse. unfold outboundBytes, outbound, feedChunks.
    rewrite !feedTexts_concat by apply held_initial. cbv zeta. cbn [snd].
    change (removelast (split NEWLINE
              (buffer initial ++
               List.concat (map chunk_toString [truncatedLine ++ [NEWLINE]]))))
      with [truncatedText].
    cbn [processLines reasoningStarted initial].
    rewrite (rejected_payload JSON_parse cfg false truncatedText eq_refl Hparse).
    cbn [written]. split; vm_compute; reflexivity.
  - intros JSON_parse cfg Hparse. unfold outboundBytes, outbound, feedChunks.
    rewrite !feedTexts_concat by apply held_initial. cbv zeta. cbn [snd].
    change (removelast (split NEWLINE
              (buffer initial ++
               List.concat (map chunk_toString
                              [accentHead ++ [0xC3]; [0xA9; NEWLINE]]))))
      with [garbledText].
    cbn [processLines reasoningStarted initial].
    rewrite (rejected_payload JSON_parse cfg false garbledText eq_refl Hparse).
    cbn [written]. split; vm_compute; reflexivity.
  - vm_compute. discriminate.
  - vm_compute. discriminate.
Qed.

(** A truncated payload, followed by the end of the stream. *)
Lemma unparseable_line_forwarded_witness :
  let line := lit "data: {oops" in
  processLine (parse_among []) deployed false line =
    {| written := [line ++ [NEWLINE]]; started := false; emitted := [] |} /\
  written (processLines (parse_among []) deployed false [line; lit "data: [DONE]"]) =
    (line ++ [NEWLINE]) ::
    written (processLines (parse_among []) deployed false [lit "data: [DONE]"]) /\
  started (processLines (parse_among []) deployed false [line; lit "data: [DONE]"]) =
    started (processLines (parse_among []) deployed false [lit "data: [DONE]"]).
Proof.
  exact (unparseable_line_forwarded (parse_among []) deployed false (lit "data: {oops")
           [lit "data: [DONE]"] eq_refl eq_refl).
Defined.

(** A request for [gpt-4], which the table resolves to another name. *)
Lemma model_echoed_witness :
  exists response,
    chatCompletion asciiLower deployed None answering 1730000000123 1730000000124
      (request (lit "gpt-4") [userMessage]) = Normal (Some response) /\
    resolveModel asciiLower First None (lit "gpt-4") =
      ModelId (lit "qwen/qwen3-coder-480b-a35b-instruct") /\
    OpenAIResponse.model response = lit "gpt-4" /\
    OpenAIResponse.model response <> lit "qwen/qwen3-coder-480b-a35b-instruct".
Proof.
  eexists. split; [vm_compute; reflexivity|]. split; [reflexivity|].
  match goal with
  | |- OpenAIResponse.model ?r = _ /\ _ =>
      destruct (model_echoed asciiLower deployed None answering
                  1730000000123 1730000000124
                  (request (lit "gpt-4") [userMessage]) r eq_refl) as [Hecho Hother]
  end.
  split; [exact Hecho|].
  apply Hother; [reflexivity | vm_compute; discriminate].
Defined.

(** The event with two choices, as deployed: the second choice keeps its
    reasoning fragment. *)
Lemma later_choices_untouched_witness :
  exists out c0',
    written (processLine (parse_among [twoChoices]) deployed false (eventLine twoChoices))
      = [frame out] /\
    getProp (lit "choices") out =
      Some (JArr [ c0';
                   JObj [ (lit "index", JNum (lit "1"));
                          (lit "delta",
                           JObj [ (lit "reasoning_content", JStr (lit "r1")) ]) ] ]).
Proof.
  destruct (later_choices_untouched (parse_among [twoChoices]) deployed false
              (eventLine twoChoices) twoChoices _ _ eq_refl eq_refl eq_refl eq_refl)
    as [H | (Hshow & _)].
  - exact H.
  - discriminate Hshow.
Defined.

(** Two reasoning deltas, a content delta and a reasoning delta again:
    the state after two lines, and the frame the third line gets. *)
Lemma delimiters_follow_flag_witness :
  let parse := parse_among [reasoningEvent; contentEvent] in
  let lines := [eventLine reasoningEvent; eventLine reasoningEvent;
                eventLine contentEvent; eventLine reasoningEvent] in
  let r := processLines parse displaying false (firstn 2 lines) in
  (track false (emitted r) = Some (started r) /\
   opens (emitted r) - closes (emitted r) = Z.b2z (started r) /\
   0 <= opens (emitted r) - closes (emitted r) <= 1) /\
  emitted (processLines parse displaying false (firstn 3 lines)) =
    [OpenThink; CloseThink] /\
  exists out fields',
    written (processLine parse displaying (started r) (eventLine contentEvent)) =
      [frame out] /\
    firstDelta out = Normal (Some (JObj fields')) /\
    assoc (lit "content") fields' = Some (JStr (THINK_CLOSE ++ lit "C")) /\
    assoc (lit "reasoning_content") fields' = None.
Proof.
  cbv zeta.
  pose proof (delimiters_follow_flag (parse_among [reasoningEvent; contentEvent])
                displaying
                [eventLine reasoningEvent; eventLine reasoningEvent;
                 eventLine contentEvent; eventLine reasoningEvent] 2 eq_refl) as H.
  cbv zeta in H. destruct H as [Hinv Hstep].
  specialize (Hstep (eventLine contentEvent) eq_refl). cbv zeta in Hstep.
  destruct Hstep as (Hsnoc & _ & Htext).
  split; [exact Hinv|]. split.
  - rewrite Hsnoc. vm_compute. reflexivity.
  - specialize (Htext contentEvent [ (lit "content", JStr (lit "C")) ]
                  eq_refl eq_refl eq_refl eq_refl eq_refl eq_refl eq_refl).
    cbv zeta in Htext. destruct Htext as (_ & Hwritten & _).
    destruct Hwritten as (out & fields' & Hw & Hd & Hc & Hr); [discriminate|].
    exists out, fields'. split; [exact Hw|]. split; [exact Hd|].
    split; [|exact Hr]. vm_compute in Hc |- *. exact Hc.
Defined.

(** C10 is not what the handler does for every stream.  A content
    fragment whose conversion to text throws (an object with a key
    [toString] of its own), beside a reasoning fragment, with the
    reasoning display on: the conversion is reached after line 184 has
    set the flag, the [catch] writes the line back as it came, so after
    this one line the flag is set while no delimiter has been written:
    the difference is 0 and the flag is 1. *)
Lemma flag_set_before_failed_conversion :
  let parse := parse_among [shadowingEvent] in
  let line := eventLine shadowingEvent in
  let r := processLines parse displaying false [line] in
  contentConverts parse line = false /\
  written r = [line ++ [NEWLINE]] /\
  includes (lit "<think>") (List.concat (written r)) = false /\
  started r = true /\
  emitted r = [] /\
  opens (emitted r) - closes (emitted r) <> Z.b2z (started r).
Proof.
  cbv zeta. split; [vm_compute; reflexivity|]. split; [vm_compute; reflexivity|].
  split; [vm_compute; reflexivity|]. split; [vm_compute; reflexivity|].
  split; [vm_compute; reflexivity|]. vm_compute. discriminate.
Qed.

(** ** Runs for the further properties *)

(** The sentinel line, cut after a held [data: [DO]. *)
Lemma rechunking_mid_stream_witness :
  let st := {| buffer := lit "data: [DO"; reasoningStarted := true |} in
  feedTexts (parse_among []) displaying st [lit "NE]"; [NEWLINE]] =
  feedTexts (parse_among []) displaying st [lit "N"; lit "E]" ++ [NEWLINE]].
Proof.
  exact (rechunking_mid_stream (parse_among []) displaying
           {| buffer := lit "data: [DO"; reasoningStarted := true |}
           [lit "NE]"; [NEWLINE]] [lit "N"; lit "E]" ++ [NEWLINE]]
           (notIn_checked NEWLINE (lit "data: [DO") eq_refl) eq_refl).
Defined.

(** The sentinel line in one chunk and in two. *)
Lemma ascii_rechunking_witness :
  feedChunks (parse_among []) deployed initial [lit "data: [DO"; lit "NE]" ++ [NEWLINE]] =
  feedChunks (parse_among []) deployed initial [lit "data: [DONE]" ++ [NEWLINE]].
Proof.
  exact (ascii_rechunking (parse_among []) deployed
           [lit "data: [DO"; lit "NE]" ++ [NEWLINE]] [lit "data: [DONE]" ++ [NEWLINE]]
           (Forall_cons _ (ascii_checked (lit "data: [DO") eq_refl)
              (Forall_cons _ (ascii_checked (lit "NE]" ++ [NEWLINE]) eq_refl)
                 (Forall_nil _)))
           (Forall_cons _ (ascii_checked (lit "data: [DONE]" ++ [NEWLINE]) eq_refl)
              (Forall_nil _))
           eq_refl).
Defined.

(** The sentinel line followed by the beginning of another line. *)
Lemma unterminated_tail_held_back_witness :
  let parse := parse_among [] in
  feedTexts parse deployed initial [lit "data: [DONE]"; [NEWLINE] ++ lit "data: {"] =
    (let '(st, lines, r) :=
       feedTexts parse deployed initial [lit "data: [DONE]" ++ [NEWLINE]] in
     ({| buffer := lit "data: {"; reasoningStarted := reasoningStarted st |}, lines, r)) /\
  feedTexts parse deployed initial [lit "data: {"] =
    ({| buffer := lit "data: {"; reasoningStarted := false |}, [],
     {| written := []; started := false; emitted := [] |}).
Proof.
  exact (unterminated_tail_held_back (parse_among []) deployed
           [lit "data: [DONE]"; [NEWLINE] ++ lit "data: {"]
           (lit "data: [DONE]") (lit "data: {")
           (notIn_checked NEWLINE (lit "data: {") eq_refl) eq_refl).
Defined.

(** The two events of the reasoning test, as deployed, from a set flag. *)
Lemma display_off_keeps_flag_witness :
  let parse := parse_among [reasoningEvent; contentEvent] in
  let lines := [eventLine reasoningEvent; eventLine contentEvent] in
  started (processLines parse deployed true lines) = true /\
  emitted (processLines parse deployed true lines) = [].
Proof.
  exact (display_off_keeps_flag (parse_among [reasoningEvent; contentEvent]) deployed true
           [eventLine reasoningEvent; eventLine contentEvent] eq_refl).
Defined.

(** The role delta that opens a stream, as deployed. *)
Lemma display_off_rewrites_delta_witness :
  let fields := [ (lit "role", JStr (lit "assistant")); (lit "content", JStr []);
                  (lit "reasoning_content", JNull) ] in
  exists out fields',
    written (processLine (parse_among [roleEvent]) deployed false (eventLine roleEvent))
      = [frame out] /\
    firstDelta out = Normal (Some (JObj fields')) /\
    assoc (lit "reasoning_content") fields' = None /\
    assoc (lit "content") fields' =
      Some (match assoc (lit "content") fields with
            | Some c => if truthy c then c else JStr []
            | None => JStr []
            end) /\
    forall k, k <> lit "content" -> k <> lit "reasoning_content" ->
              assoc k fields' = assoc k fields.
Proof.
  exact (display_off_rewrites_delta (parse_among [roleEvent]) deployed false
           (eventLine roleEvent) roleEvent
           [ (lit "role", JStr (lit "assistant")); (lit "content", JStr []);
             (lit "reasoning_content", JNull) ]
           eq_refl eq_refl eq_refl eq_refl eq_refl).
Defined.

(** The rewrite of the event that quotes the sentinel, applied again. *)
Lemma display_off_rewrite_idempotent_witness :
  let out := deltaEvent (JObj [ (lit "content", JStr (lit "[DONE]")) ]) in
  transformEvent deployed false out = (Normal (out, []), false).
Proof.
  exact (display_off_rewrite_idempotent deployed false false quotingEvent
           (deltaEvent (JObj [ (lit "content", JStr (lit "[DONE]")) ])) []
           eq_refl eq_refl).
Defined.

(** Reasoning and content in one delta, at the start of a stream. *)
Lemma text_fragments_merged_witness :
  combineContent false (Some (JStr (lit "R"))) (Some (JStr (lit "C"))) =
  (Normal (JStr (THINK_OPEN ++ lit "R" ++ THINK_CLOSE ++ lit "C"),
           [OpenThink; CloseThink]), false).
Proof.
  exact (text_fragments_merged false (Some (JStr (lit "R"))) (Some (JStr (lit "C")))
           eq_refl eq_refl).
Defined.

(** A name of the table, with a probe that would have been accepted. *)
Lemma table_names_resolved_witness :
  resolveModel asciiLower Second (Some 200) (lit "gpt-4o") =
  ModelId (lit "deepseek-ai/deepseek-v3.1").
Proof.
  exact (table_names_resolved asciiLower Second (Some 200) (lit "gpt-4o")
           (lit "deepseek-ai/deepseek-v3.1") eq_refl).
Defined.

(** An upstream identifier sent as the model name. *)
Lemma probe_adopts_name_witness :
  resolveModel asciiLower First (Some 200) (lit "mistralai/mixtral-8x7b") =
  ModelId (lit "mistralai/mixtral-8x7b").
Proof.
  exact (probe_adopts_name asciiLower First (Some 200) (lit "mistralai/mixtral-8x7b")
           eq_refl eq_refl ltac:(discriminate)).
Defined.

(** A [null] after a user message, as deployed and with the toggles off. *)
Lemma null_message_fails_witness :
  let body := request (lit "gpt-4") [userMessage; JNull] in
  chatCompletion asciiLower deployed None answering 1730000000123 1730000000124 body
    = Throw /\
  exists sent,
    upstreamRequest asciiLower First plain None body = Normal sent /\
    NimRequest.messages sent = [userMessage; JNull].
Proof.
  pose (Hnull := or_intror (or_introl eq_refl) : In JNull [userMessage; JNull]).
  split.
  - exact (proj2 (proj1 (null_message_fails asciiLower deployed None answering
                           1730000000123 1730000000124
                           (request (lit "gpt-4") [userMessage; JNull]) Hnull) eq_refl)).
  - exact (proj2 (null_message_fails asciiLower plain None answering
                    1730000000123 1730000000124
                    (request (lit "gpt-4") [userMessage; JNull]) Hnull) eq_refl).
Defined.

(** A system message that is only a role. *)
Lemma system_message_without_text_witness :
  enhance (JObj [ (lit "role", JStr (lit "system")) ]) =
  Normal (JObj [ (lit "role", JStr (lit "system"));
                 (lit "content", JStr (lit "undefined" ++ ELABORATION_SUFFIX)) ]).
Proof.
  exact (proj1 (system_message_without_text [ (lit "role", JStr (lit "system")) ] eq_refl)
           eq_refl).
Defined.

(** The answer with one choice and no usage. *)
Lemma answer_shape_witness :
  exists response,
    openaiResponse deployed 1730000000123 1730000000124 (lit "gpt-4") answer
      = Normal response /\
    List.length (OpenAIResponse.choices response) = 1%nat /\
    OpenAIResponse.usage response = ZERO_USAGE /\
    OpenAIResponse.id response = lit "chatcmpl-1730000000123" /\
    OpenAIResponse.created response = 1730000000.
Proof.
  eexists. split; [vm_compute; reflexivity|].
  match goal with
  | |- List.length (OpenAIResponse.choices ?r) = _ /\ _ =>
      destruct (answer_shape deployed 1730000000123 1730000000124 (lit "gpt-4") answer
                  r eq_refl)
        as ((items & Hitems & Hlen & _) & Husage & Hid & _ & Hcreated)
  end.
  injection Hitems as <-.
  split; [exact Hlen|]. split; [exact Husage|]. split; [exact Hid | exact Hcreated].
Defined.

(** A choice with reasoning, with the reasoning display on. *)
Lemma completion_content_witness :
  exists response,
    chatCompletion asciiLower displaying None (fun _ => Some (JObj reasonedFields))
      1730000000123 1730000000124 (request (lit "gpt-4") [userMessage])
      = Normal (Some response) /\
    Forall2
      (fun item c =>
         Choice.content c =
         JStr (THINK_OPEN ++ lit "because" ++ [NEWLINE] ++ THINK_CLOSE ++ lit "hello"))
      [reasonedChoice] (OpenAIResponse.choices response).
Proof.
  destruct (completion_content asciiLower displaying None
              (fun _ => Some (JObj reasonedFields))
              1730000000123 1730000000124 (request (lit "gpt-4") [userMessage])
              reasonedFields [reasonedChoice]
              eq_refl eq_refl (fun _ => eq_refl) eq_refl eq_refl)
    as (response & Hr & Hall).
  exists response. split; [exact Hr|].
  inversion Hall as [|item c items choices Hc Hrest]. subst.
  inversion Hrest. subst. constructor; [exact Hc | constructor].
Defined.

(** A second choice without a message, after a good one. *)
Lemma malformed_answer_fails_witness :
  chatCompletion asciiLower deployed None (fun _ => Some strayAnswer)
    1730000000123 1730000000124 (request (lit "gpt-4") [userMessage]) = Throw.
Proof.
  exact (proj2 (malformed_answer_fails asciiLower deployed None
                  (fun _ => Some strayAnswer) 1730000000123 1730000000124
                  (request (lit "gpt-4") [userMessage]) strayAnswer
                  (fun _ => eq_refl) eq_refl
                  (or_intror
                     (ex_intro _ [reasonedChoice; strayChoice]
                        (ex_intro _ strayChoice
                           (conj eq_refl
                              (conj (or_intror (or_introl eq_refl))
                                 (or_introl eq_refl)))))))).
Defined.
